(** * Ballistic flight with quadratic drag: the integration engine of lab01/main.py

    The engine is [BallisticApp.run_simulation] together with
    [BallisticApp.calculate_drag_force].  Python's [float] is IEEE 754
    binary64, which is what Rocq's primitive [float] is, so the arithmetic
    of the program is embedded operation for operation: [+], [*], [/],
    comparison and [sqrt] are the primitive ones, and the places where
    Python raises instead of returning a special value ([/] by zero, [**]
    on overflow, the [math] wrappers) return [Raise].

    The three functions the program takes from the platform's C library
    ([cos], [sin] and the [pow] behind [**]) are not fixed by IEEE 754;
    they are parameters of the development (record [Libm]) and every
    general theorem holds for all of them. *)

From Stdlib Require Import String.
From Stdlib Require Import Floats ZArith List Bool Lia PeanoNat.
Import ListNotations.

Set Warnings "-inexact-float".

Local Open Scope float_scope.

(** ** Exceptions and the error monad *)

Inductive exn : Set :=
| ZeroDivisionError
| OverflowError
| ValueError
| IndexError.

Inductive outcome (A : Type) : Type :=
| Ok (a : A)
| Raise (e : exn).

Arguments Ok {A} a.
Arguments Raise {A} e.

Definition bind {A B : Type} (m : outcome A) (k : A -> outcome B) : outcome B :=
  match m with
  | Ok a => k a
  | Raise e => Raise e
  end.

Notation "x <- m ;; k" := (bind m (fun x => k))
  (at level 61, m at next level, right associativity).

(** ** The platform's C library *)

Record Libm : Type := mkLibm {
  libm_cos : float -> float;
  libm_sin : float -> float;
  libm_pow : float -> float -> float
}.

(** ** Python's float operations *)

Module Py.

(** [a / b] on floats: ZeroDivisionError when the divisor compares equal
    to zero (either sign), the IEEE quotient otherwise. *)
Definition float_div (a b : float) : outcome float :=
  if b =? 0 then Raise ZeroDivisionError else Ok (a / b).

(** [math_1] of mathmodule.c with [can_overflow = 0], the wrapper of
    [math.sqrt], [math.cos] and [math.sin]: a NaN result of a non-NaN
    argument and an infinite result of a finite argument are both
    "math domain error". *)
Definition math_1 (func : float -> float) (x : float) : outcome float :=
  let r := func x in
  if is_nan r && negb (is_nan x) then Raise ValueError
  else if is_infinity r && is_finite x then Raise ValueError
  else Ok r.

Definition math_sqrt : float -> outcome float := math_1 PrimFloat.sqrt.

Definition pi : float := 0x1.921fb54442d18p+1.
Definition degToRad : float := pi / 180.

(** [math.radians]: one multiplication by the constant pi/180. *)
Definition math_radians (x : float) : float := x * degToRad.

Section WithLibm.
Variable libm : Libm.

Definition math_cos : float -> outcome float := math_1 (libm_cos libm).
Definition math_sin : float -> outcome float := math_1 (libm_sin libm).

(** [iv ** 2], following [float_pow] of floatobject.c at the exponent
    2.0: NaN, infinities, zeros and 1.0 are answered without the C
    library; a negative base is negated first (2 is even, so the
    result is not negated back); an infinite result of [pow] on the
    finite base that is left raises OverflowError. [pow] is taken to set
    [errno] only on overflow and on underflow to zero, as glibc does. *)
Definition float_pow2 (iv : float) : outcome float :=
  if is_nan iv then Ok iv
  else if is_infinity iv then Ok (abs iv)
  else if iv =? 0 then Ok 0
  else
    let iv := if iv <? 0 then - iv else iv in
    if iv =? 1 then Ok 1
    else
      let ix := libm_pow libm iv 2 in
      if is_infinity ix then Raise OverflowError else Ok ix.
End WithLibm.

End Py.

(** ** Data model *)

(** The dictionary returned by [get_parameters]. *)
Record params : Set := mkParams {
  v0 : float;
  angle : float;
  mass : float;
  rho : float;
  Cd : float;
  A : float;
  dt : float
}.

(** The dataclass [SimulationResult]. *)
Module SimulationResult.
Record t : Set := mk {
  dt : float;
  trajectory : list (float * float);
  speeds : list float;
  range : float;
  max_height : float;
  final_speed : float
}.
End SimulationResult.

(** The local variables of [run_simulation] that the loop updates. *)
Record locals : Set := mkLocals {
  x : float;
  y : float;
  vx : float;
  vy : float;
  t : float;
  trajectory : list (float * float);
  speeds : list float;
  max_height : float
}.

(** The part of [BallisticApp] that [run_simulation] touches besides the
    widgets: the list of past results and the colour counter that
    [animate_new_trajectory] advances. *)
Record BallisticApp : Set := mkApp {
  results : list SimulationResult.t;
  color_index : nat
}.

(** [self.g], assigned once in [__init__]. *)
Definition g : float := 9.81.

(** ** The engine *)

Section Engine.
Variable libm : Libm.

(** [calculate_drag_force], lines 163-164. *)
Definition calculate_drag_force (v : float) (p : params) : outcome float :=
  v2 <- Py.float_pow2 libm v ;;
  Ok (0.5 * rho p * Cd p * A p * v2).

(** Lines 184-185: the speed and the drag magnitude at the start of a step. *)
Definition speed_and_drag (p : params) (s : locals) : outcome (float * float) :=
  vx2 <- Py.float_pow2 libm (vx s) ;;
  vy2 <- Py.float_pow2 libm (vy s) ;;
  v <- Py.math_sqrt (vx2 + vy2) ;;
  drag <- calculate_drag_force v p ;;
  Ok (v, drag).

(** Lines 187-188: the two conditional expressions. The integer [0] of
    the [else] branch of [ax] becomes [0.0] when it is multiplied by
    [dt]. *)
Definition acceleration (p : params) (s : locals) : outcome (float * float) :=
  vd <- speed_and_drag p s ;;
  let '(v, drag) := vd in
  ax <- (if 0 <? v then Py.float_div (- drag * vx s) (mass p * v) else Ok 0) ;;
  ay <- (if 0 <? v
         then q <- Py.float_div (drag * vy s) (mass p * v) ;; Ok (- g - q)
         else Ok (- g)) ;;
  Ok (ax, ay).

(** Lines 184-200: one pass through the body of the [while] loop. *)
Definition loop_body (p : params) (s : locals) : outcome locals :=
  a <- acceleration p s ;;
  let '(ax, ay) := a in
  let vx' := vx s + ax * dt p in
  let vy' := vy s + ay * dt p in
  let x' := x s + vx' * dt p in
  let y' := y s + vy' * dt p in
  let t' := t s + dt p in
  speed <- Py.math_sqrt (vx' * vx' + vy' * vy') ;;
  Ok {| x := x'; y := y'; vx := vx'; vy := vy'; t := t';
        trajectory := trajectory s ++ [(x', y')];
        speeds := speeds s ++ [speed];
        max_height := if max_height s <? y' then y' else max_height s |}.

(** Line 183: [while y >= 0]. [None] is "still in the loop after [fuel]
    passes"; leaving the loop costs no fuel. *)
Fixpoint while_loop (fuel : nat) (p : params) (s : locals) : option (outcome locals) :=
  if 0 <=? y s then
    match fuel with
    | O => None
    | S fuel' =>
        match loop_body p s with
        | Ok s' => while_loop fuel' p s'
        | Raise e => Some (Raise e)
        end
    end
  else Some (Ok s).

(** Lines 171-181: the state on entry to the loop. *)
Definition initial_locals (p : params) : outcome locals :=
  let angle_rad := Py.math_radians (angle p) in
  c <- Py.math_cos libm angle_rad ;;
  let vx0 := v0 p * c in
  s <- Py.math_sin libm angle_rad ;;
  let vy0 := v0 p * s in
  speed <- Py.math_sqrt (vx0 * vx0 + vy0 * vy0) ;;
  Ok {| x := 0; y := 0; vx := vx0; vy := vy0; t := 0;
        trajectory := [(0, 0)]; speeds := [speed]; max_height := 0 |}.

(** [speeds[-1]]. *)
Definition last_item (l : list float) : outcome float :=
  match rev l with
  | [] => Raise IndexError
  | v :: _ => Ok v
  end.

(** Lines 202-209. *)
Definition make_result (p : params) (s : locals) : outcome SimulationResult.t :=
  fs <- last_item (speeds s) ;;
  Ok {| SimulationResult.dt := dt p;
        SimulationResult.trajectory := trajectory s;
        SimulationResult.speeds := speeds s;
        SimulationResult.range := x s;
        SimulationResult.max_height := max_height s;
        SimulationResult.final_speed := fs |}.

(** Lines 171-200: everything up to the end of the loop. *)
Definition integrate (p : params) (fuel : nat) : option (outcome locals) :=
  match initial_locals p with
  | Ok s0 => while_loop fuel p s0
  | Raise e => Some (Raise e)
  end.

(** Lines 171-209: the [SimulationResult] of one set of parameters. *)
Definition simulate (p : params) (fuel : nat) : option (outcome SimulationResult.t) :=
  match integrate p fuel with
  | Some (Ok s) => Some (make_result p s)
  | Some (Raise e) => Some (Raise e)
  | None => None
  end.

(** [n] passes through the loop body, ignoring the loop test. *)
Fixpoint steps (n : nat) (p : params) (s : locals) : outcome locals :=
  match n with
  | O => Ok s
  | S n' => s' <- loop_body p s ;; steps n' p s'
  end.

End Engine.

(** ** A sample of the C library

    The closed examples need one concrete C library. [sample_libm]
    tabulates the values glibc returns on x86-64 for [cos] and [sin] at
    0, 45 and 90 degrees (after [math.radians]); [cos 0 = 1] and
    [sin 0 = 0] are fixed by Annex F of the C standard. Elsewhere the
    sample answers NaN, which [math_1] reports as ValueError, so an
    example cannot silently leave the table. [pow] at the exponent 2 is
    the correctly rounded square; glibc's [pow] differs from it by one
    unit in the last place at rare arguments, and at none that changes a
    sample of the runs below. *)

Definition sample_trig : list (float * (float * float)) :=
  [ (0, (1, 0));
    (0x1.921fb54442d18p-1, (0x1.6a09e667f3bcdp-1, 0x1.6a09e667f3bccp-1));
    (0x1.921fb54442d18p+0, (0x1.1a62633145c07p-54, 1)) ].

Fixpoint lookup (k : float) (l : list (float * (float * float))) : option (float * float) :=
  match l with
  | [] => None
  | (k', v) :: l' => if k =? k' then Some v else lookup k l'
  end.

Definition sample_libm : Libm :=
  {| libm_cos := fun a => match lookup a sample_trig with Some (c, _) => c | None => nan end;
     libm_sin := fun a => match lookup a sample_trig with Some (_, s) => s | None => nan end;
     libm_pow := fun a b => if b =? 2 then a * a else nan |}.

(** [t] after [n] passes: [dt] added [n] times to [0.0], one rounding per
    addition (line 194). *)
Fixpoint repeated_add (n : nat) (d : float) : float :=
  match n with
  | O => 0
  | S n' => repeated_add n' d + d
  end.

(** Python's conversion of a list length to [float]. *)
Definition float_of_nat (n : nat) : float :=
  PrimFloat.of_uint63 (Uint63.of_Z (Z.of_nat n)).

(** [update_table], line 262: [flight_time = len(r.trajectory) * r.dt]. *)
Definition flight_time (r : SimulationResult.t) : float :=
  float_of_nat (length (SimulationResult.trajectory r)) * SimulationResult.dt r.

(** The parameters with another drag coefficient. *)
Definition with_Cd (p : params) (c : float) : params :=
  {| v0 := v0 p; angle := angle p; mass := mass p; rho := rho p;
     Cd := c; A := A p; dt := dt p |}.

(** ** The order of binary64 values *)

Module FloatOrder.

(** A non-NaN value is ranked by a triple of integers compared
    lexicographically: the class (-inf, negative, zero, positive, +inf),
    then exponent and mantissa, negated for negative values. *)
Definition key (f : spec_float) : option (Z * Z * Z) :=
  match f with
  | S754_nan => None
  | S754_infinity true => Some (-2, 0, 0)%Z
  | S754_infinity false => Some (2, 0, 0)%Z
  | S754_zero _ => Some (0, 0, 0)%Z
  | S754_finite false m e => Some (1, e, Zpos m)%Z
  | S754_finite true m e => Some (-1, - e, Zneg m)%Z
  end.

Definition lex3 (a b : Z * Z * Z) : comparison :=
  let '(a1, a2, a3) := a in
  let '(b1, b2, b3) := b in
  match (a1 ?= b1)%Z with
  | Eq => match (a2 ?= b2)%Z with
          | Eq => (a3 ?= b3)%Z
          | r => r
          end
  | r => r
  end.

(** The primitive comparisons are read through the ranking. *)
Definition rank (x : float) : option (Z * Z * Z) := key (Prim2SF x).



End FloatOrder.

Module FloatClass.


End FloatClass.

(** ** Loop invariants *)

(** The last sample is the current position, every sample before it
    passed the loop test, and [speeds] ends with the current speed. *)
Definition samples_inv (s : locals) : Prop :=
  exists earlier sp last_speed,
    trajectory s = earlier ++ [(x s, y s)] /\
    Forall (fun q => (0 <=? snd q) = true) earlier /\
    speeds s = sp ++ [last_speed] /\
    length sp = length earlier.

(** The first sample and the first speed stay at the head of the lists. *)
Definition heads_inv (speed0 : float) (s : locals) : Prop :=
  exists tl tl',
    trajectory s = (0, 0) :: tl /\ speeds s = speed0 :: tl' /\
    length tl = length tl'.

(** The running maximum dominates every sample that is not NaN, and is
    one of the samples. *)
Definition height_inv (s : locals) : Prop :=
  is_nan (max_height s) = false /\
  (forall q, In q (trajectory s) -> is_nan (snd q) = false ->
             (snd q <=? max_height s) = true) /\
  (exists q, In q (trajectory s) /\ snd q = max_height s).

(** [t] counts the appended samples. *)
Definition time_inv (p : params) (s : locals) : Prop :=
  1 <= length (trajectory s) /\
  t s = repeated_add (length (trajectory s) - 1) (dt p).

(** The state in which the loop stops is the first one, counting passes
    through the body, that fails the loop test. *)
Definition lands_after (libm : Libm) (p : params) (s : locals) (n : nat) (s' : locals) : Prop :=
  steps libm n p s = Ok s' /\ (0 <=? y s') = false /\
  forall k, k < n -> exists sk, steps libm k p s = Ok sk /\ (0 <=? y sk) = true.

(** A pass makes progress downward: it lowers the vertical velocity,
    or keeps it and lowers the height. *)
Definition descends (s s1 : locals) : Prop :=
  (vy s1 <? vy s) = true \/ (vy s1 = vy s /\ (y s1 <? y s) = true).


(** A check of [descends] along a run: the loop is left within [fuel]
    passes, none of them raises and each lowers the vertical velocity. *)
Fixpoint lands_descending (libm : Libm) (fuel : nat) (p : params) (s : locals) : bool :=
  if 0 <=? y s then
    match fuel with
    | O => false
    | S fuel' =>
        match loop_body libm p s with
        | Ok s1 => (vy s1 <? vy s) && lands_descending libm fuel' p s1
        | Raise _ => false
        end
    end
  else true.

(** The constraints the specification puts on the parameters (the
    engine itself checks none of them): every field finite, positive
    speed, mass and step, non-negative density, coefficient and area. *)
Definition valid_parameters (p : params) : bool :=
  is_finite (v0 p) && is_finite (angle p) && is_finite (mass p) &&
  is_finite (rho p) && is_finite (Cd p) && is_finite (A p) && is_finite (dt p) &&
  (0 <? v0 p) && (0 <? mass p) && (0 <=? rho p) && (0 <=? Cd p) &&
  (0 <=? A p) && (0 <? dt p).

(** ** Example parameters *)

(** The values the application's entry fields start with. *)
Definition default_params : params :=
  {| v0 := 100; angle := 45; mass := 1; rho := 1.29; Cd := 0.15; A := 0.01; dt := 0.01 |}.

(** The defaults with a step of one second: a run of a few passes. *)
Definition coarse_params : params :=
  {| v0 := 100; angle := 45; mass := 1; rho := 1.29; Cd := 0.15; A := 0.01; dt := 1 |}.

(** Horizontal launch into an atmosphere so dense that the drag
    magnitude overflows to infinity. *)
Definition dense_params : params :=
  {| v0 := 1; angle := 0; mass := 1; rho := 1e308; Cd := 4; A := 1; dt := 1 |}.

(** The defaults launched horizontally at 1e200 m/s. *)
Definition fast_params : params :=
  {| v0 := 1e200; angle := 0; mass := 1; rho := 1.29; Cd := 0.15; A := 0.01; dt := 0.01 |}.


(** The defaults launched horizontally at 0.25 m/s with the smallest
    positive mass. *)
Definition light_params : params :=
  {| v0 := 0.25; angle := 0; mass := 0x1p-1074; rho := 1.29; Cd := 0.15; A := 0.01;
     dt := 0.01 |}.

(** Horizontal launch at 1 m/s, unit mass, density, area and step; the
    drag coefficient is set by [with_Cd]. *)
Definition unit_params : params :=
  {| v0 := 1; angle := 0; mass := 1; rho := 1; Cd := 0; A := 1; dt := 1 |}.


(** The state in which [level_params] enters the loop, and the state
    after its first pass. *)
Definition level_launch : locals :=
  {| x := 0; y := 0; vx := 100; vy := 0; t := 0;
     trajectory := [(0, 0)]; speeds := [100]; max_height := 0 |}.


(** The state in which [coarse_params] enters the loop. *)
Definition coarse_launch : locals :=
  Eval vm_compute in
    match initial_locals sample_libm coarse_params with
    | Ok s => s
    | Raise _ => level_launch
    end.

(** The defaults without air. *)
Definition airless_params : params :=
  {| v0 := 100; angle := 45; mass := 1; rho := 0; Cd := 0.15; A := 0.01; dt := 1 |}.

Definition no_result : SimulationResult.t :=
  {| SimulationResult.dt := 0; SimulationResult.trajectory := [];
     SimulationResult.speeds := []; SimulationResult.range := 0;
     SimulationResult.max_height := 0; SimulationResult.final_speed := 0 |}.

Definition coarse_result : SimulationResult.t :=
  Eval vm_compute in
    match simulate sample_libm coarse_params 20 with
    | Some (Ok r) => r
    | _ => no_result
    end.

Definition coarse_final : locals :=
  Eval vm_compute in
    match integrate sample_libm coarse_params 20 with
    | Some (Ok s) => s
    | _ => {| x := 0; y := 0; vx := 0; vy := 0; t := 0;
              trajectory := []; speeds := []; max_height := 0 |}
    end.


(** The state on entry to the loop for the default parameters, and the
    state after the first pass. *)
Definition launch : locals :=
  {| x := 0; y := 0;
     vx := 0x1.1ad7bc01366b8p+6; vy := 0x1.1ad7bc01366b7p+6; t := 0;
     trajectory := [(0, 0)]; speeds := [0x1.8ffffffffffffp+6]; max_height := 0 |}.

Definition after_one_pass : locals :=
  Eval vm_compute in
    match loop_body sample_libm default_params launch with
    | Ok s => s
    | Raise _ => launch
    end.

(** ** The presentation layer

    The rest of [BallisticApp]: [__init__] and [build_ui] (the entry
    fields and their initial texts), [get_parameters],
    [animate_new_trajectory], [update_table], [update_info] and
    [clear_results]. Of the widgets, the state is kept that these methods
    read or write: the texts of the entry fields, the lines of the axes
    with their colour and label, the upper axis limits last requested,
    the data of the current animation, the rows of the table, the
    information label and the error dialogs shown. Axis titles, grid,
    geometry and redrawing are left out. What can raise here is Python's
    own indexing, slicing and [max], and matplotlib's [set_xlim] and
    [set_ylim], which refuse a limit that is NaN or infinite; the other
    calls into Tk and matplotlib are taken to return.

    An exception that leaves [run_simulation] does not end the program:
    the method is a Tk callback, Tk reports the exception and the window
    stays open with the attributes assigned so far. The methods that can
    stop half way therefore have two forms here: [..._stop] gives the
    window at the point where the method ended together with the
    exception, if any, and the form with the source's name forgets the
    window of a method that raised.

    Python's conversions between [float] and text ([float(s)], [str(x)]
    and the format [.Nf]) are parameters, like the C library. *)

Record Text : Type := mkText {
  float_of_string : string -> option float;
  str_float : float -> string;
  format_fixed : nat -> float -> string
}.

Module Ui.

(** [self.colors], lines 39-40. *)
Definition colors : list string :=
  ["#1f77b4"; "#ff7f0e"; "#2ca02c"; "#d62728";
   "#9467bd"; "#8c564b"; "#e377c2"; "#7f7f7f"]%string.

(** The labels of the six entry fields, the keys of [self.entries]
    (lines 80-87). *)
Definition label_v0 : string := "Начальная скорость (м/с)".
Definition label_angle : string := "Угол запуска (°)".
Definition label_mass : string := "Масса тела (кг)".
Definition label_rho : string := "Плотность воздуха (кг/м³)".
Definition label_Cd : string := "Коэффициент сопротивления".
Definition label_A : string := "Площадь сечения (м²)".

Definition labels : list string :=
  [label_v0; label_angle; label_mass; label_rho; label_Cd; label_A].

(** A line of [ax_traj], as [plot] creates it (line 233). *)
Record line : Set := mkLine {
  color : string;
  label : string
}.

(** A row of the table (lines 263-269). *)
Record row : Set := mkRow {
  row_dt : string;
  row_range : string;
  row_max_height : string;
  row_final_speed : string;
  row_flight_time : string
}.

(** The text of [info_label]: the fixed sentence of lines 144 and 273,
    or the four numbers that lines 277-283 put into their template. *)
Inductive info : Set :=
| NoRun
| LastRun (step range height speed : string).

(** [xlim] and [ylim] hold the upper limit passed to the last call of
    [set_xlim] and of [set_ylim] that returned since the axes were created
    or cleared. They record the request: matplotlib widens an interval
    whose two ends coincide, so the axes need not show this very value. *)
Record window : Set := mkWindow {
  core : BallisticApp;
  entries : list (string * string);
  dt_entry : string;
  lines : list line;
  xlim : option float;
  ylim : option float;
  anim : option (list float * list float);
  tree : list row;
  info_label : info;
  errors_shown : nat
}.

(** Both upper limits, once both have been requested. *)
Definition limits (w : window) : option (float * float) :=
  match xlim w, ylim w with
  | Some a, Some b => Some (a, b)
  | _, _ => None
  end.

(** [self.entries[key]]: [None] is KeyError. *)
Fixpoint lookup_entry (key : string) (d : list (string * string)) : option string :=
  match d with
  | [] => None
  | (k, v) :: d' => if String.eqb key k then Some v else lookup_entry key d'
  end.

(** Typing into the entry field [key]. *)
Definition set_entry (key text : string) (d : list (string * string))
  : list (string * string) :=
  map (fun kv => if String.eqb key (fst kv) then (fst kv, text) else kv) d.

(** [l[::step]]: a zero step is ValueError. *)
Fixpoint every_nth {T : Type} (gap skip : nat) (l : list T) : list T :=
  match l with
  | [] => []
  | a :: l' =>
      match skip with
      | O => a :: every_nth gap gap l'
      | S skip' => every_nth gap skip' l'
      end
  end.

Definition slice_step {T : Type} (step : nat) (l : list T) : outcome (list T) :=
  match step with
  | O => Raise ValueError
  | S gap => Ok (every_nth gap 0 l)
  end.

(** [max(l)] on floats: the first element, replaced by each later
    element that compares greater; ValueError on the empty list. *)
Definition py_max (l : list float) : outcome float :=
  match l with
  | [] => Raise ValueError
  | a :: l' => Ok (fold_left (fun m b => if m <? b then b else m) l' a)
  end.

(** [l[i]] for a non-negative index. *)
Definition item {T : Type} (l : list T) (i : nat) : outcome T :=
  match nth_error l i with
  | Some a => Ok a
  | None => Raise IndexError
  end.

Definition max_frames : nat := 800.

(** The function [animate] of lines 239-241: the data of frame [i]. *)
Definition animate (xs ys : list float) (i : nat) : list float * list float :=
  (firstn i xs, firstn i ys).

(** [frames=len(xs)] of line 249: the frames are [range(len(xs))]. *)
Definition frames (xs : list float) : list nat := seq 0 (length xs).

Section WithText.
Variable libm : Libm.
Variable text : Text.

(** [__init__] followed by [build_ui]: lines 27-41, 89-101 and 144. *)
Definition initial_window : window :=
  {| core := {| results := []; color_index := 0 |};
     entries := [(label_v0, str_float text 100);
                 (label_angle, str_float text 45);
                 (label_mass, str_float text 1);
                 (label_rho, str_float text 1.29);
                 (label_Cd, str_float text 0.15);
                 (label_A, str_float text 0.01)];
     dt_entry := "0.01";
     lines := []; xlim := None; ylim := None; anim := None; tree := [];
     info_label := NoRun; errors_shown := 0 |}.

(** [float(self.entries[key].get())]: [None] when the key is missing or
    the text is not a number. *)
Definition entry_float (w : window) (key : string) : option float :=
  match lookup_entry key (entries w) with
  | Some s => float_of_string text s
  | None => None
  end.

(** The dictionary display of lines 150-158, evaluated in order. *)
Definition read_parameters (w : window) : option params :=
  match entry_float w label_v0 with None => None | Some a =>
  match entry_float w label_angle with None => None | Some b =>
  match entry_float w label_mass with None => None | Some c =>
  match entry_float w label_rho with None => None | Some d =>
  match entry_float w label_Cd with None => None | Some e =>
  match entry_float w label_A with None => None | Some f =>
  match float_of_string text (dt_entry w) with None => None | Some h =>
  Some {| v0 := a; angle := b; mass := c; rho := d; Cd := e; A := f; dt := h |}
  end end end end end end end.

Definition showerror (w : window) : window :=
  {| core := core w; entries := entries w; dt_entry := dt_entry w;
     lines := lines w; xlim := xlim w; ylim := ylim w; anim := anim w; tree := tree w;
     info_label := info_label w; errors_shown := S (errors_shown w) |}.

(** [get_parameters], lines 148-161: the bare [except] turns every
    exception into the error dialog and [None]. *)
Definition get_parameters (w : window) : window * option params :=
  match read_parameters w with
  | Some p => (w, Some p)
  | None => (showerror w, None)
  end.

(** Lines 263-269. *)
Definition table_row (r : SimulationResult.t) : row :=
  {| row_dt := format_fixed text 6 (SimulationResult.dt r);
     row_range := format_fixed text 2 (SimulationResult.range r);
     row_max_height := format_fixed text 2 (SimulationResult.max_height r);
     row_final_speed := format_fixed text 2 (SimulationResult.final_speed r);
     row_flight_time := format_fixed text 2 (flight_time r) |}.

(** [update_table], lines 257-269: every row is deleted, then one row is
    inserted per result. *)
Definition update_table (w : window) : window :=
  {| core := core w; entries := entries w; dt_entry := dt_entry w;
     lines := lines w; xlim := xlim w; ylim := ylim w; anim := anim w;
     tree := map table_row (results (core w));
     info_label := info_label w; errors_shown := errors_shown w |}.

(** The label text for a list of results, lines 272-283. *)
Definition info_of (rs : list SimulationResult.t) : info :=
  match rev rs with
  | [] => NoRun
  | r :: _ =>
      LastRun (format_fixed text 6 (SimulationResult.dt r))
              (format_fixed text 2 (SimulationResult.range r))
              (format_fixed text 2 (SimulationResult.max_height r))
              (format_fixed text 2 (SimulationResult.final_speed r))
  end.

(** [update_info], lines 271-283. *)
Definition update_info (w : window) : window :=
  {| core := core w; entries := entries w; dt_entry := dt_entry w;
     lines := lines w; xlim := xlim w; ylim := ylim w; anim := anim w; tree := tree w;
     info_label := info_of (results (core w));
     errors_shown := errors_shown w |}.

(** [clear_results], lines 285-300: [ax_traj.clear()] removes the lines
    and resets the limits; the animation object is not touched. *)
Definition clear_results (w : window) : window :=
  update_info (update_table
    {| core := {| results := []; color_index := 0 |};
       entries := entries w; dt_entry := dt_entry w;
       lines := []; xlim := None; ylim := None; anim := anim w; tree := tree w;
       info_label := info_label w; errors_shown := errors_shown w |}).

(** Lines 225-231: the points handed to the animation. *)
Definition displayed_points (xs ys : list float) : outcome (list float * list float) :=
  let n := length xs in
  if (max_frames <? n)%nat then
    let step := (n / max_frames)%nat in
    xs' <- slice_step step xs ;;
    ys' <- slice_step step ys ;;
    Ok (xs', ys')
  else Ok (xs, ys).

(** The attribute and widget updates of [animate_new_trajectory]:
    line 221, line 233, lines 236 and 237 when the call returns, and
    lines 246-253. *)
Definition advance_color (w : window) : window :=
  {| core := {| results := results (core w);
                color_index := S (color_index (core w)) |};
     entries := entries w; dt_entry := dt_entry w;
     lines := lines w; xlim := xlim w; ylim := ylim w; anim := anim w;
     tree := tree w; info_label := info_label w; errors_shown := errors_shown w |}.

Definition plot (w : window) (ln : line) : window :=
  {| core := core w; entries := entries w; dt_entry := dt_entry w;
     lines := lines w ++ [ln]; xlim := xlim w; ylim := ylim w; anim := anim w;
     tree := tree w; info_label := info_label w; errors_shown := errors_shown w |}.

Definition set_xlim (w : window) (upper : float) : window :=
  {| core := core w; entries := entries w; dt_entry := dt_entry w;
     lines := lines w; xlim := Some upper; ylim := ylim w; anim := anim w;
     tree := tree w; info_label := info_label w; errors_shown := errors_shown w |}.

Definition set_ylim (w : window) (upper : float) : window :=
  {| core := core w; entries := entries w; dt_entry := dt_entry w;
     lines := lines w; xlim := xlim w; ylim := Some upper; anim := anim w;
     tree := tree w; info_label := info_label w; errors_shown := errors_shown w |}.

Definition set_anim (w : window) (points : list float * list float) : window :=
  {| core := core w; entries := entries w; dt_entry := dt_entry w;
     lines := lines w; xlim := xlim w; ylim := ylim w; anim := Some points;
     tree := tree w; info_label := info_label w; errors_shown := errors_shown w |}.

(** What [Axes.set_xlim] and [Axes.set_ylim] check before they assign:
    matplotlib refuses a limit that is NaN or infinite with ValueError. *)
Definition check_limit (upper : float) : outcome float :=
  if is_finite upper then Ok upper else Raise ValueError.

(** [animate_new_trajectory], lines 216-255, statement by statement: the
    colour (line 220), the counter (221), the points (225-231), the new
    line of the axes (233), the two limits (236, 237), the animation
    (243-253). The window of the result is the one the method leaves
    behind, also when a statement raised. *)
Definition animate_new_trajectory_stop (w : window) (result : SimulationResult.t)
  : window * option exn :=
  let xs := map fst (SimulationResult.trajectory result) in
  let ys := map snd (SimulationResult.trajectory result) in
  match item colors ((color_index (core w) mod length colors)%nat) with
  | Raise e => (w, Some e)
  | Ok c =>
      let w1 := advance_color w in
      match displayed_points xs ys with
      | Raise e => (w1, Some e)
      | Ok (xs', ys') =>
          let w2 :=
            plot w1
              {| color := c;
                 label := ("dt=" ++ str_float text (SimulationResult.dt result))%string |} in
          match (mx <- py_max xs' ;; check_limit (mx * 1.05)) with
          | Raise e => (w2, Some e)
          | Ok upper_x =>
              let w3 := set_xlim w2 upper_x in
              match (my <- py_max ys' ;; check_limit (my * 1.05)) with
              | Raise e => (w3, Some e)
              | Ok upper_y => (set_anim (set_ylim w3 upper_y) (xs', ys'), None)
              end
          end
      end
  end.

Definition animate_new_trajectory (w : window) (result : SimulationResult.t)
  : outcome window :=
  match animate_new_trajectory_stop w result with
  | (w', None) => Ok w'
  | (_, Some e) => Raise e
  end.

(** Line 211: [self.results.append(result)]. *)
Definition append_result (w : window) (result : SimulationResult.t) : window :=
  {| core := {| results := results (core w) ++ [result];
                color_index := color_index (core w) |};
     entries := entries w; dt_entry := dt_entry w;
     lines := lines w; xlim := xlim w; ylim := ylim w; anim := anim w; tree := tree w;
     info_label := info_label w; errors_shown := errors_shown w |}.

(** [run_simulation], lines 166-214, with the widgets. An exception of
    the integration loop leaves the window as [get_parameters] left it;
    an exception of [animate_new_trajectory] leaves the result appended
    (line 211) and whatever that method had assigned, and lines 213-214
    are not reached. *)
Definition run_simulation_stop (w : window) (fuel : nat)
  : option (window * option exn) :=
  let '(w1, parameters) := get_parameters w in
  match parameters with
  | None => Some (w1, None)
  | Some p =>
      match simulate libm p fuel with
      | Some (Ok result) =>
          match animate_new_trajectory_stop (append_result w1 result) result with
          | (w2, None) => Some (update_info (update_table w2), None)
          | (w2, Some e) => Some (w2, Some e)
          end
      | Some (Raise e) => Some (w1, Some e)
      | None => None
      end
  end.

Definition run_simulation (w : window) (fuel : nat) : option (outcome window) :=
  match run_simulation_stop w fuel with
  | Some (w', None) => Some (Ok w')
  | Some (_, Some e) => Some (Raise e)
  | None => None
  end.

(** What the user can do: type into one of the six fields or into the
    step field, press the run button, press the clear button. *)
Definition type_entry (w : window) (key s : string) : window :=
  {| core := core w; entries := set_entry key s (entries w);
     dt_entry := dt_entry w;
     lines := lines w; xlim := xlim w; ylim := ylim w; anim := anim w; tree := tree w;
     info_label := info_label w; errors_shown := errors_shown w |}.

Definition type_dt (w : window) (s : string) : window :=
  {| core := core w; entries := entries w; dt_entry := s;
     lines := lines w; xlim := xlim w; ylim := ylim w; anim := anim w; tree := tree w;
     info_label := info_label w; errors_shown := errors_shown w |}.

(** The windows a session can reach. A press of the run button that
    ends in an exception leaves the window in which the method stopped. *)
Inductive reachable : window -> Prop :=
| reach_initial : reachable initial_window
| reach_type_entry w key s : reachable w -> reachable (type_entry w key s)
| reach_type_dt w s : reachable w -> reachable (type_dt w s)
| reach_run w fuel w' :
    reachable w -> run_simulation w fuel = Some (Ok w') -> reachable w'
| reach_run_raised w fuel w' e :
    reachable w -> run_simulation_stop w fuel = Some (w', Some e) -> reachable w'
| reach_clear w : reachable w -> reachable (clear_results w).

End WithText.

End Ui.

(** What holds of the window throughout a session: the colour counter
    and the lines of the axes count the stored results; the six fields
    exist; line number i has colour number i modulo 8 and the step of
    result number i in its label; the table and the information label
    show the results that were stored when they were last rebuilt, a
    prefix [shown] of the stored ones, and each result stored since then
    is one for which [animate_new_trajectory] raises; no limit is
    requested while nothing is stored, and none for y before one for x. *)
Definition session_inv (text : Text) (w : Ui.window) : Prop :=
  color_index (Ui.core w) = length (results (Ui.core w)) /\
  length (Ui.lines w) = length (results (Ui.core w)) /\
  map fst (Ui.entries w) = Ui.labels /\
  (forall i ln,
     nth_error (Ui.lines w) i = Some ln ->
     exists r,
       nth_error (results (Ui.core w)) i = Some r /\
       nth_error Ui.colors (i mod 8) = Some (Ui.color ln) /\
       Ui.label ln = ("dt=" ++ str_float text (SimulationResult.dt r))%string) /\
  (exists shown pending,
     results (Ui.core w) = shown ++ pending /\
     Ui.tree w = map (Ui.table_row text) shown /\
     Ui.info_label w = Ui.info_of text shown /\
     Forall (fun r => forall w0,
               Ui.animate_new_trajectory text w0 r = Raise ValueError) pending) /\
  (results (Ui.core w) = [] -> Ui.xlim w = None /\ Ui.ylim w = None) /\
  (Ui.xlim w = None -> Ui.ylim w = None).

(** ** A sample of Python's conversions between floats and text

    The values of [float(s)], [str(x)] and the format [.Nf] at the
    arguments the examples use; elsewhere the sample does not parse, and
    prints a question mark. *)

Definition sample_numbers : list (string * float) :=
  [("100.0", 100); ("45.0", 45); ("1.0", 1); ("1.29", 1.29);
   ("0.15", 0.15); ("0.01", 0.01); ("1", 1); ("0", 0); ("1e200", 1e200);
   ("1e154", 1e154); ("1e155", 1e155)]%string.

Definition sample_formats : list (nat * float * string) :=
  [(6%nat, 1, "1.000000"); (2%nat, 525.54262214987989, "525.54");
   (2%nat, 142.41907287601754, "142.42"); (2%nat, 60.232334431571843, "60.23");
   (2%nat, 12, "12.00")]%string.

Definition sample_text : Text :=
  {| float_of_string := fun s =>
       match find (fun e => String.eqb s (fst e)) sample_numbers with
       | Some e => Some (snd e)
       | None => None
       end;
     str_float := fun a =>
       match find (fun e => a =? snd e) sample_numbers with
       | Some e => fst e
       | None => "?"%string
       end;
     format_fixed := fun d a =>
       match find (fun e => Nat.eqb d (fst (fst e)) && (a =? snd (fst e)))
                  sample_formats with
       | Some e => snd e
       | None => "?"%string
       end |}.

(** ** Example windows *)

(** The window as it opens, with the step field changed to "1". *)
Definition coarse_window : Ui.window :=
  Ui.type_dt (Ui.initial_window sample_text) "1".

(** The same window after the run button is pressed. *)
Definition coarse_window_after_run : Ui.window :=
  Eval vm_compute in
    match Ui.run_simulation sample_libm sample_text coarse_window 20 with
    | Some (Ok w) => w
    | _ => coarse_window
    end.

(** The window as it opens, with "1e200" typed into the speed field and
    "0" into the angle field: the parameters of [fast_params]. *)
Definition fast_window : Ui.window :=
  Ui.type_entry (Ui.type_entry (Ui.initial_window sample_text) Ui.label_v0 "1e200")
                Ui.label_angle "0".

(** The window as it opens, with "1e154" typed into the speed field,
    "0" into the angle and density fields and "1e155" into the step
    field: a horizontal launch without air whose only pass ends at
    x = +inf. *)
Definition far_window : Ui.window :=
  Ui.type_dt
    (Ui.type_entry
       (Ui.type_entry
          (Ui.type_entry (Ui.initial_window sample_text) Ui.label_v0 "1e154")
          Ui.label_angle "0")
       Ui.label_rho "0")
    "1e155".

Definition far_params : params :=
  {| v0 := 1e154; angle := 0; mass := 1; rho := 0; Cd := 0.15; A := 0.01;
     dt := 1e155 |}.

Definition far_result : SimulationResult.t :=
  Eval vm_compute in
    match simulate sample_libm far_params 1 with
    | Some (Ok r) => r
    | _ => no_result
    end.

(** The window in which the run on [far_window] stops. *)
Definition far_window_after_run : Ui.window :=
  Eval vm_compute in
    match Ui.run_simulation_stop sample_libm sample_text far_window 1 with
    | Some (w, _) => w
    | None => far_window
    end.

(** [coarse_window] after line 211 and after line 212 of a run. *)
Definition coarse_window_appended : Ui.window :=
  Ui.append_result coarse_window coarse_result.

Definition coarse_window_animated : Ui.window :=
  Eval vm_compute in
    match Ui.animate_new_trajectory sample_text coarse_window_appended coarse_result with
    | Ok w => w
    | Raise _ => coarse_window
    end.

(** A trajectory of 1600 samples, numbered in x. *)
Definition long_trajectory : list (float * float) :=
  map (fun k => (float_of_nat k, 0)) (seq 0 1600).

(** What the window displays: the stored results with the colour
    counter, the lines of the axes, the axis limits, the table and the
    information label. *)
Definition display (w : Ui.window)
  : BallisticApp * list Ui.line * option (float * float) * list Ui.row * Ui.info :=
  (Ui.core w, Ui.lines w, Ui.limits w, Ui.tree w, Ui.info_label w).

(** [coarse_window_after_run] with "0.01" typed back into the step field. *)
Definition used_window : Ui.window :=
  Ui.type_dt coarse_window_after_run "0.01".

(** [dense_params] with a step of zero. *)
Definition dense_still_params : params :=
  {| v0 := 1; angle := 0; mass := 1; rho := 1e308; Cd := 4; A := 1; dt := 0 |}.

Definition dense_still_result : SimulationResult.t :=
  Eval vm_compute in
    match simulate sample_libm dense_still_params 1 with
    | Some (Ok r) => r
    | _ => no_result
    end.

(** * Properties *)

(** ** The error monad *)

Lemma bind_Ok_inv {A B : Type} (m : outcome A) (k : A -> outcome B) (b : B) :
  bind m k = Ok b -> exists a, m = Ok a /\ k a = Ok b.
Proof. destruct m as [a|e]; simpl; intros H; [exists a; auto | discriminate]. Qed.

Lemma bind_Raise_inv {A B : Type} (m : outcome A) (k : A -> outcome B) (e : exn) :
  bind m k = Raise e -> m = Raise e \/ exists a, m = Ok a /\ k a = Raise e.
Proof.
  destruct m as [a|e']; simpl; intros H;
    [right; exists a; auto | left; congruence].
Qed.

(** ** Facts about the order of binary64 values *)

Module FloatOrderFacts.
Import FloatOrder.

Lemma SFcompare_key (f1 f2 : spec_float) :
  SFcompare f1 f2 =
  match key f1, key f2 with
  | Some a, Some b => Some (lex3 a b)
  | _, _ => None
  end.
Proof.
  destruct f1 as [s1|s1| |s1 m1 e1], f2 as [s2|s2| |s2 m2 e2];
    try destruct s1; try destruct s2; try reflexivity.
  simpl. rewrite Z.compare_opp, (Z.compare_antisym e1 e2).
  destruct (e1 ?= e2)%Z; reflexivity.
Qed.

Ltac lex_cases :=
  unfold lex3;
  repeat match goal with
         | |- context [(?a ?= ?b)%Z] => destruct (Z.compare_spec a b)
         | H : context [(?a ?= ?b)%Z] |- _ => destruct (Z.compare_spec a b)
         end;
  try congruence; try lia.

Lemma lex3_refl (a : Z * Z * Z) : lex3 a a = Eq.
Proof. destruct a as [[a1 a2] a3]. lex_cases. Qed.

Lemma lex3_le_lt_trans (a b c : Z * Z * Z) :
  lex3 a b <> Gt -> lex3 b c = Lt -> lex3 a c <> Gt.
Proof.
  destruct a as [[a1 a2] a3], b as [[b1 b2] b3], c as [[c1 c2] c3]. lex_cases.
Qed.

Lemma lex3_not_lt (a b : Z * Z * Z) : lex3 a b <> Lt -> lex3 b a <> Gt.
Proof. destruct a as [[a1 a2] a3], b as [[b1 b2] b3]. lex_cases. Qed.

Lemma lex3_gt_lt (a b : Z * Z * Z) : lex3 a b = Gt -> lex3 b a = Lt.
Proof. destruct a as [[a1 a2] a3], b as [[b1 b2] b3]. lex_cases. Qed.

Lemma ltb_rank (x y : float) :
  (x <? y) = match rank x, rank y with
             | Some a, Some b => match lex3 a b with Lt => true | _ => false end
             | _, _ => false
             end.
Proof.
  rewrite FloatAxioms.ltb_spec. unfold SFltb, rank. rewrite SFcompare_key.
  destruct (key (Prim2SF x)), (key (Prim2SF y)); reflexivity.
Qed.

Lemma leb_rank (x y : float) :
  (x <=? y) = match rank x, rank y with
              | Some a, Some b => match lex3 a b with Gt => false | _ => true end
              | _, _ => false
              end.
Proof.
  rewrite FloatAxioms.leb_spec. unfold SFleb, rank. rewrite SFcompare_key.
  destruct (key (Prim2SF x)), (key (Prim2SF y)); reflexivity.
Qed.

Lemma is_nan_rank (x : float) :
  is_nan x = match rank x with Some _ => false | None => true end.
Proof.
  unfold is_nan. rewrite FloatAxioms.eqb_spec. unfold SFeqb, rank. rewrite SFcompare_key.
  destruct (key (Prim2SF x)) as [k|]; [rewrite lex3_refl|]; reflexivity.
Qed.

Lemma leb_refl (a : float) : is_nan a = false -> (a <=? a) = true.
Proof.
  rewrite is_nan_rank, leb_rank. destruct (rank a) as [ka|]; [|discriminate].
  rewrite lex3_refl. reflexivity.
Qed.

Lemma leb_ltb_trans (a b c : float) :
  (a <=? b) = true -> (b <? c) = true -> (a <=? c) = true.
Proof.
  rewrite !leb_rank, ltb_rank.
  destruct (rank a) as [ka|], (rank b) as [kb|], (rank c) as [kc|];
    try discriminate.
  intros H1 H2.
  assert (lex3 ka kc <> Gt).
  { apply lex3_le_lt_trans with kb.
    - destruct (lex3 ka kb); congruence.
    - destruct (lex3 kb kc); congruence. }
  destruct (lex3 ka kc); congruence.
Qed.

Lemma ltb_false_leb (a b : float) :
  (a <? b) = false -> is_nan a = false -> is_nan b = false -> (b <=? a) = true.
Proof.
  rewrite !is_nan_rank, leb_rank, ltb_rank.
  destruct (rank a) as [ka|], (rank b) as [kb|]; try discriminate.
  intros H _ _.
  assert (lex3 kb ka <> Gt).
  { apply lex3_not_lt. destruct (lex3 ka kb); congruence. }
  destruct (lex3 kb ka); congruence.
Qed.

Lemma ltb_true_not_nan (a b : float) :
  (a <? b) = true -> is_nan a = false /\ is_nan b = false.
Proof.
  rewrite !is_nan_rank, ltb_rank.
  destruct (rank a), (rank b); try discriminate. auto.
Qed.

Lemma leb_true_not_nan (a b : float) :
  (a <=? b) = true -> is_nan a = false /\ is_nan b = false.
Proof.
  rewrite !is_nan_rank, leb_rank.
  destruct (rank a), (rank b); try discriminate. auto.
Qed.

(** [a >= b] is false exactly when [a < b] or one of the two is NaN. *)
Lemma leb_false_iff (a b : float) :
  (b <=? a) = false <-> (a <? b) = true \/ is_nan a = true \/ is_nan b = true.
Proof.
  rewrite !is_nan_rank, leb_rank, ltb_rank.
  destruct (rank a) as [ka|], (rank b) as [kb|]; try tauto.
  assert (E : lex3 kb ka = Gt <-> lex3 ka kb = Lt).
  { destruct ka as [[a1 a2] a3], kb as [[b1 b2] b3]. split; lex_cases. }
  destruct (lex3 kb ka), (lex3 ka kb); intuition congruence.
Qed.

(** *** The order is a finite chain *)





End FloatOrderFacts.

(** ** Signs through the arithmetic of binary64 values *)

Module FloatClassFacts.
Import FloatClass.












End FloatClassFacts.

(** ** Inversion of the monadic definitions *)

Section EngineFacts.
Variable libm : Libm.

Lemma loop_body_inv (p : params) (s s' : locals) :
  loop_body libm p s = Ok s' ->
  exists ax ay speed,
    acceleration libm p s = Ok (ax, ay) /\
    Py.math_sqrt ((vx s + ax * dt p) * (vx s + ax * dt p)
                  + (vy s + ay * dt p) * (vy s + ay * dt p)) = Ok speed /\
    s' = {| x := x s + (vx s + ax * dt p) * dt p;
            y := y s + (vy s + ay * dt p) * dt p;
            vx := vx s + ax * dt p;
            vy := vy s + ay * dt p;
            t := t s + dt p;
            trajectory := trajectory s ++ [(x s + (vx s + ax * dt p) * dt p,
                                            y s + (vy s + ay * dt p) * dt p)];
            speeds := speeds s ++ [speed];
            max_height :=
              if max_height s <? y s + (vy s + ay * dt p) * dt p
              then y s + (vy s + ay * dt p) * dt p else max_height s |}.
Proof.
  unfold loop_body. intros H.
  apply bind_Ok_inv in H. destruct H as ([ax ay] & Hacc & H).
  apply bind_Ok_inv in H. destruct H as (speed & Hspeed & H).
  exists ax, ay, speed. repeat split; auto. congruence.
Qed.

(** C1. Every pass through the loop body that completes is one explicit
    Euler step with g = 9.81: the velocity is advanced by the
    acceleration computed from the state at the start of the pass, the
    position is then advanced by the new velocity, and t by dt. *)
Theorem euler_step_explicit (p : params) (s s' : locals) :
  loop_body libm p s = Ok s' ->
  g = 9.81 /\
  exists ax ay,
    acceleration libm p s = Ok (ax, ay) /\
    vx s' = vx s + ax * dt p /\
    vy s' = vy s + ay * dt p /\
    x s' = x s + vx s' * dt p /\
    y s' = y s + vy s' * dt p /\
    t s' = t s + dt p.
Proof.
  intros H. split; [reflexivity|].
  destruct (loop_body_inv _ _ _ H) as (ax & ay & speed & Hacc & _ & ->).
  exists ax, ay. simpl. repeat split; auto.
Qed.

(** C2. In every pass, with v = sqrt(vx ** 2 + vy ** 2), the drag
    magnitude is 0.5 * rho * Cd * A * v ** 2, and when v > 0 the
    acceleration is ax = -drag * vx / (mass * v) and
    ay = -g - drag * vy / (mass * v). *)
Theorem drag_and_acceleration (p : params) (s : locals) (ax ay : float) :
  acceleration libm p s = Ok (ax, ay) ->
  exists vx2 vy2 v v2 drag,
    Py.float_pow2 libm (vx s) = Ok vx2 /\
    Py.float_pow2 libm (vy s) = Ok vy2 /\
    Py.math_sqrt (vx2 + vy2) = Ok v /\
    v = PrimFloat.sqrt (vx2 + vy2) /\
    Py.float_pow2 libm v = Ok v2 /\
    calculate_drag_force libm v p = Ok drag /\
    drag = 0.5 * rho p * Cd p * A p * v2 /\
    ((0 <? v) = true ->
     ax = - drag * vx s / (mass p * v) /\
     ay = - g - drag * vy s / (mass p * v)).
Proof.
  unfold acceleration, speed_and_drag. intros H.
  apply bind_Ok_inv in H. destruct H as ([v drag] & Hvd & H).
  apply bind_Ok_inv in Hvd. destruct Hvd as (vx2 & Hvx2 & Hvd).
  apply bind_Ok_inv in Hvd. destruct Hvd as (vy2 & Hvy2 & Hvd).
  apply bind_Ok_inv in Hvd. destruct Hvd as (v' & Hv & Hvd).
  apply bind_Ok_inv in Hvd. destruct Hvd as (drag' & Hdrag & Hvd).
  injection Hvd as -> ->.
  assert (Hd := Hdrag). unfold calculate_drag_force in Hd.
  apply bind_Ok_inv in Hd. destruct Hd as (v2 & Hv2 & Hd). injection Hd as Hd.
  apply bind_Ok_inv in H. destruct H as (ax' & Hax & H).
  apply bind_Ok_inv in H. destruct H as (ay' & Hay & H).
  injection H as -> ->.
  exists vx2, vy2, v, v2, drag.
  repeat split; auto.
  - unfold Py.math_sqrt, Py.math_1 in Hv.
    destruct (_ && _) in Hv; [discriminate|].
    destruct (_ && _) in Hv; [discriminate|]. congruence.
  - rewrite H in Hax. unfold Py.float_div in Hax.
    destruct (mass p * v =? 0); [discriminate | congruence].
  - rewrite H in Hay. apply bind_Ok_inv in Hay. destruct Hay as (q & Hq & Hay).
    unfold Py.float_div in Hq.
    destruct (mass p * v =? 0); [discriminate | congruence].
Qed.

(** *** The loop *)

Lemma while_loop_exit (p : params) (fuel : nat) (s : locals) :
  (0 <=? y s) = false -> while_loop libm fuel p s = Some (Ok s).
Proof. intros H. destruct fuel; simpl; rewrite H; reflexivity. Qed.

Lemma while_loop_pass (p : params) (fuel : nat) (s : locals) :
  (0 <=? y s) = true ->
  while_loop libm (S fuel) p s =
  match loop_body libm p s with
  | Ok s' => while_loop libm fuel p s'
  | Raise e => Some (Raise e)
  end.
Proof. intros H. simpl. rewrite H. reflexivity. Qed.

(** A returning loop has passed through the body from one state that
    satisfies the loop test to the next, and stopped at one that fails it. *)
Lemma while_loop_invariant (p : params) (P : locals -> Prop) :
  (forall s s', P s -> (0 <=? y s) = true -> loop_body libm p s = Ok s' -> P s') ->
  forall fuel s s',
    P s -> while_loop libm fuel p s = Some (Ok s') ->
    P s' /\ (0 <=? y s') = false.
Proof.
  intros Hstep. induction fuel as [|fuel IH]; intros s s' HP H.
  - simpl in H. destruct (0 <=? y s) eqn:E; [discriminate|].
    injection H as <-. auto.
  - destruct (0 <=? y s) eqn:E.
    + rewrite (while_loop_pass _ _ _ E) in H.
      destruct (loop_body libm p s) as [s1|e] eqn:Hb; [|discriminate].
      apply (IH s1); eauto.
    + rewrite (while_loop_exit _ _ _ E) in H. injection H as <-. auto.
Qed.

(** More fuel does not change an answer. *)
Lemma while_loop_fuel (p : params) (fuel fuel' : nat) (s : locals) (r : outcome locals) :
  fuel <= fuel' ->
  while_loop libm fuel p s = Some r -> while_loop libm fuel' p s = Some r.
Proof.
  revert fuel' s. induction fuel as [|fuel IH]; intros fuel' s Hle H.
  - simpl in H. destruct (0 <=? y s) eqn:E; [discriminate|].
    rewrite (while_loop_exit _ _ _ E). exact H.
  - destruct fuel' as [|fuel']; [lia|].
    simpl in *. destruct (0 <=? y s); [|exact H].
    destruct (loop_body libm p s); [|exact H].
    apply IH; [lia | exact H].
Qed.

(** The loop is entered at least once: the first test is [0.0 >= 0]. *)
Lemma initial_locals_inv (p : params) (s0 : locals) :
  initial_locals libm p = Ok s0 ->
  exists c sn speed,
    Py.math_cos libm (Py.math_radians (angle p)) = Ok c /\
    Py.math_sin libm (Py.math_radians (angle p)) = Ok sn /\
    Py.math_sqrt (v0 p * c * (v0 p * c) + v0 p * sn * (v0 p * sn)) = Ok speed /\
    s0 = {| x := 0; y := 0; vx := v0 p * c; vy := v0 p * sn; t := 0;
            trajectory := [(0, 0)]; speeds := [speed]; max_height := 0 |}.
Proof.
  unfold initial_locals. intros H.
  apply bind_Ok_inv in H. destruct H as (c & Hc & H).
  apply bind_Ok_inv in H. destruct H as (sn & Hs & H).
  apply bind_Ok_inv in H. destruct H as (speed & Hsp & H).
  exists c, sn, speed. repeat split; auto. congruence.
Qed.

Lemma math_1_value (f : float -> float) (a r : float) :
  Py.math_1 f a = Ok r -> r = f a.
Proof.
  unfold Py.math_1. destruct (_ && _); [discriminate|].
  destruct (_ && _); [discriminate|]. congruence.
Qed.

Lemma last_item_app (l : list float) (v : float) : last_item (l ++ [v]) = Ok v.
Proof. unfold last_item. rewrite rev_app_distr. reflexivity. Qed.

Lemma simulate_inv (p : params) (fuel : nat) (r : SimulationResult.t) :
  simulate libm p fuel = Some (Ok r) ->
  exists s0 s',
    initial_locals libm p = Ok s0 /\
    while_loop libm fuel p s0 = Some (Ok s') /\
    make_result p s' = Ok r.
Proof.
  unfold simulate, integrate. intros H.
  destruct (initial_locals libm p) as [s0|e] eqn:H0; [|discriminate].
  destruct (while_loop libm fuel p s0) as [[s'|e]|] eqn:Hw; try discriminate.
  exists s0, s'. repeat split; auto. congruence.
Qed.

Lemma make_result_inv (p : params) (s : locals) (r : SimulationResult.t) :
  make_result p s = Ok r ->
  exists fs,
    last_item (speeds s) = Ok fs /\
    r = {| SimulationResult.dt := dt p;
           SimulationResult.trajectory := trajectory s;
           SimulationResult.speeds := speeds s;
           SimulationResult.range := x s;
           SimulationResult.max_height := max_height s;
           SimulationResult.final_speed := fs |}.
Proof.
  unfold make_result. intros H.
  apply bind_Ok_inv in H. destruct H as (fs & Hfs & H).
  exists fs. split; [assumption | congruence].
Qed.

(** *** The samples recorded by the loop *)

Lemma samples_inv_initial (p : params) (s0 : locals) :
  initial_locals libm p = Ok s0 -> samples_inv s0.
Proof.
  intros H. destruct (initial_locals_inv _ _ H) as (c & sn & speed & _ & _ & _ & ->).
  exists [], [], speed. simpl. auto.
Qed.

Lemma samples_inv_step (p : params) (s s' : locals) :
  samples_inv s -> (0 <=? y s) = true -> loop_body libm p s = Ok s' ->
  samples_inv s'.
Proof.
  intros (earlier & sp & ls & Ht & Hall & Hs & Hlen) Hy Hb.
  destruct (loop_body_inv _ _ _ Hb) as (ax & ay & speed & _ & _ & ->).
  exists (earlier ++ [(x s, y s)]), (sp ++ [ls]), speed. simpl.
  rewrite Ht, Hs. repeat split.
  - apply Forall_app. split; [assumption|]. constructor; [exact Hy | constructor].
  - rewrite !length_app. simpl. lia.
Qed.

(** C3. A run that returns recorded the sample that ended the loop: the
    last sample is the first whose y fails the test [y >= 0] (it is
    negative, or NaN), every earlier sample passed it, [range] is the x of
    that last sample, [final_speed] the last entry of [speeds], and [dt]
    the step of the parameters. *)
Theorem exit_sample_recorded (p : params) (fuel : nat) (r : SimulationResult.t) :
  simulate libm p fuel = Some (Ok r) ->
  exists earlier xl yl sp,
    SimulationResult.trajectory r = earlier ++ [(xl, yl)] /\
    ((yl <? 0) = true \/ is_nan yl = true) /\
    Forall (fun q => (0 <=? snd q) = true) earlier /\
    SimulationResult.range r = xl /\
    SimulationResult.speeds r = sp ++ [SimulationResult.final_speed r] /\
    SimulationResult.dt r = dt p.
Proof.
  intros H. destruct (simulate_inv _ _ _ H) as (s0 & s' & H0 & Hw & Hr).
  destruct (while_loop_invariant p samples_inv (samples_inv_step p) fuel
              s0 s' (samples_inv_initial _ _ H0) Hw)
    as ((earlier & sp & ls & Ht & Hall & Hs & _) & Hy).
  destruct (make_result_inv _ _ _ Hr) as (fs & Hfs & ->). simpl.
  rewrite Hs, last_item_app in Hfs. injection Hfs as <-.
  exists earlier, (x s'), (y s'), sp. repeat split; auto.
  apply FloatOrderFacts.leb_false_iff in Hy.
  destruct Hy as [Hy|[Hy|Hy]]; auto. discriminate.
Qed.

Lemma heads_inv_step (p : params) (speed0 : float) (s s' : locals) :
  heads_inv speed0 s -> (0 <=? y s) = true -> loop_body libm p s = Ok s' ->
  heads_inv speed0 s'.
Proof.
  intros (tl & tl' & Ht & Hs & Hlen) _ Hb.
  destruct (loop_body_inv _ _ _ Hb) as (ax & ay & speed & _ & _ & ->).
  exists (tl ++ [(x s + (vx s + ax * dt p) * dt p, y s + (vy s + ay * dt p) * dt p)]),
         (tl' ++ [speed]).
  simpl. rewrite Ht, Hs, !length_app. simpl. auto.
Qed.

(** C4. A run that returns has as many speeds as samples, at least two
    of each; the first sample is (0, 0); the velocity on entry to the loop
    is (v0 * cos a, v0 * sin a) for a the angle in radians; and the first
    speed is the square root of the sum of the squares of these two
    components. *)
Theorem initial_sample_and_lengths (p : params) (fuel : nat) (r : SimulationResult.t) :
  simulate libm p fuel = Some (Ok r) ->
  exists s0,
    initial_locals libm p = Ok s0 /\
    vx s0 = v0 p * libm_cos libm (Py.math_radians (angle p)) /\
    vy s0 = v0 p * libm_sin libm (Py.math_radians (angle p)) /\
    length (SimulationResult.trajectory r) = length (SimulationResult.speeds r) /\
    2 <= length (SimulationResult.trajectory r) /\
    nth_error (SimulationResult.trajectory r) 0 = Some (0, 0) /\
    nth_error (SimulationResult.speeds r) 0 =
      Some (PrimFloat.sqrt (vx s0 * vx s0 + vy s0 * vy s0)).
Proof.
  intros H. destruct (simulate_inv _ _ _ H) as (s0 & s' & H0 & Hw & Hr).
  exists s0. split; [exact H0|].
  assert (Hs0 := samples_inv_initial _ _ H0).
  destruct (initial_locals_inv _ _ H0) as (c & sn & speed & Hc & Hs & Hsp & E0).
  apply math_1_value in Hc, Hs, Hsp. subst s0 c sn. simpl.
  assert (Hh : heads_inv speed
                 {| x := 0; y := 0;
                    vx := v0 p * libm_cos libm (Py.math_radians (angle p));
                    vy := v0 p * libm_sin libm (Py.math_radians (angle p));
                    t := 0; trajectory := [(0, 0)]; speeds := [speed];
                    max_height := 0 |}).
  { exists [], []. simpl. auto. }
  destruct (while_loop_invariant p (heads_inv speed) (heads_inv_step p speed)
              fuel _ s' Hh Hw) as ((tl & tl' & Ht & Hsl & Hlen) & _).
  destruct (while_loop_invariant p samples_inv (samples_inv_step p) fuel
              _ s' Hs0 Hw)
    as ((earlier & sp & ls & Ht' & _ & _ & _) & Hy).
  destruct (make_result_inv _ _ _ Hr) as (fs & _ & ->). simpl.
  rewrite Ht, Hsl. simpl.
  repeat split; try congruence; try lia.
  destruct tl as [|q tl]; [|simpl; lia].
  exfalso. rewrite Ht in Ht'.
  destruct earlier as [|q earlier].
  - simpl in Ht'. injection Ht' as Hx Hyy. rewrite <- Hyy in Hy.
    vm_compute in Hy. discriminate.
  - simpl in Ht'. injection Ht' as _ Hnil. destruct earlier; discriminate.
Qed.

(** *** The running maximum *)

Lemma height_inv_step (p : params) (s s' : locals) :
  height_inv s -> (0 <=? y s) = true -> loop_body libm p s = Ok s' ->
  height_inv s'.
Proof.
  intros (Hnan & Hall & (q0 & Hin0 & Hq0)) _ Hb.
  destruct (loop_body_inv _ _ _ Hb) as (ax & ay & speed & _ & _ & ->).
  unfold height_inv. simpl.
  set (x' := x s + (vx s + ax * dt p) * dt p).
  set (y' := y s + (vy s + ay * dt p) * dt p).
  destruct (max_height s <? y') eqn:E.
  - destruct (FloatOrderFacts.ltb_true_not_nan _ _ E) as [_ Hy'].
    split; [exact Hy'|]. split.
    + intros q Hin Hq. apply in_app_or in Hin. destruct Hin as [Hin|[<-|[]]].
      * apply FloatOrderFacts.leb_ltb_trans with (max_height s); auto.
      * simpl. apply FloatOrderFacts.leb_refl. exact Hy'.
    + exists (x', y'). split; [apply in_or_app; right; left|]; reflexivity.
  - split; [exact Hnan|]. split.
    + intros q Hin Hq. apply in_app_or in Hin. destruct Hin as [Hin|[<-|[]]].
      * auto.
      * simpl in *. apply FloatOrderFacts.ltb_false_leb; auto.
    + exists q0. split; [apply in_or_app; left|]; assumption.
Qed.

(** C5. In a run that returns, [max_height] is not NaN, it is the y of
    one of the samples, and it is greater than or equal to the y of every
    sample whose y is not NaN (only the last sample can have a NaN y, by
    [exit_sample_recorded]). *)
Theorem max_height_is_maximum (p : params) (fuel : nat) (r : SimulationResult.t) :
  simulate libm p fuel = Some (Ok r) ->
  is_nan (SimulationResult.max_height r) = false /\
  (forall q, In q (SimulationResult.trajectory r) -> is_nan (snd q) = false ->
             (snd q <=? SimulationResult.max_height r) = true) /\
  (exists q, In q (SimulationResult.trajectory r) /\
             snd q = SimulationResult.max_height r).
Proof.
  intros H. destruct (simulate_inv _ _ _ H) as (s0 & s' & H0 & Hw & Hr).
  assert (Hh : height_inv s0).
  { destruct (initial_locals_inv _ _ H0) as (c & sn & speed & _ & _ & _ & ->).
    unfold height_inv. simpl. split; [reflexivity|]. split.
    - intros q [<-|[]] _. reflexivity.
    - exists (0, 0). auto. }
  destruct (while_loop_invariant p height_inv (height_inv_step p) fuel s0 s' Hh Hw)
    as (Hinv & _).
  destruct (make_result_inv _ _ _ Hr) as (fs & _ & ->). exact Hinv.
Qed.

(** *** Simulated time *)

Lemma time_inv_step (p : params) (s s' : locals) :
  time_inv p s -> (0 <=? y s) = true -> loop_body libm p s = Ok s' ->
  time_inv p s'.
Proof.
  intros (Hlen & Ht) _ Hb.
  destruct (loop_body_inv _ _ _ Hb) as (ax & ay & speed & _ & _ & ->).
  unfold time_inv. simpl. rewrite length_app. simpl. split; [lia|].
  replace (length (trajectory s) + 1 - 1)%nat
    with (S (length (trajectory s) - 1)) by lia.
  simpl. rewrite Ht. reflexivity.
Qed.

(** C10. On exit from the loop, [t] is [dt] added to 0.0 once per
    appended sample, that is (number of samples - 1) times, each addition
    rounded; the table's flight time is the number of samples times [dt],
    one rounded product. *)
Theorem elapsed_time_repeated_sum (p : params) (fuel : nat) (s' : locals) :
  integrate libm p fuel = Some (Ok s') ->
  t s' = repeated_add (length (trajectory s') - 1) (dt p) /\
  exists r,
    make_result p s' = Ok r /\
    SimulationResult.trajectory r = trajectory s' /\
    flight_time r = float_of_nat (length (trajectory s')) * dt p.
Proof.
  unfold integrate. intros H.
  destruct (initial_locals libm p) as [s0|e] eqn:H0; [|discriminate].
  assert (Hi : time_inv p s0).
  { destruct (initial_locals_inv _ _ H0) as (c & sn & speed & _ & _ & _ & ->).
    unfold time_inv. simpl. auto. }
  destruct (while_loop_invariant p (time_inv p) (time_inv_step p) fuel s0 s' Hi H)
    as ((_ & Ht) & _).
  split; [exact Ht|].
  destruct (while_loop_invariant p samples_inv (samples_inv_step p) fuel
              s0 s' (samples_inv_initial _ _ H0) H)
    as ((earlier & sp & ls & _ & _ & Hs & _) & _).
  eexists. unfold make_result. rewrite Hs, last_item_app. simpl.
  split; [reflexivity|]. split; reflexivity.
Qed.

(** *** When the loop returns *)

Lemma steps_S (p : params) (n : nat) (s : locals) :
  steps libm (S n) p s = (s' <- loop_body libm p s ;; steps libm n p s').
Proof. reflexivity. Qed.

Lemma steps_length (p : params) (n : nat) :
  forall s s', steps libm n p s = Ok s' ->
               length (trajectory s') = (n + length (trajectory s))%nat.
Proof.
  induction n as [|n IH]; intros s s' H.
  - simpl in H. injection H as <-. reflexivity.
  - rewrite steps_S in H. apply bind_Ok_inv in H. destruct H as (s1 & Hb & H).
    rewrite (IH _ _ H).
    destruct (loop_body_inv _ _ _ Hb) as (ax & ay & speed & _ & _ & ->).
    simpl. rewrite length_app. simpl. lia.
Qed.

Lemma while_loop_lands (p : params) (fuel : nat) :
  forall s s', while_loop libm fuel p s = Some (Ok s') ->
               exists n, n <= fuel /\ lands_after libm p s n s'.
Proof.
  induction fuel as [|fuel IH]; intros s s' H.
  - simpl in H. destruct (0 <=? y s) eqn:E; [discriminate|]. injection H as <-.
    exists 0%nat. repeat split; auto. intros k Hk. lia.
  - destruct (0 <=? y s) eqn:E.
    + rewrite (while_loop_pass _ _ _ E) in H.
      destruct (loop_body libm p s) as [s1|e] eqn:Hb; [|discriminate].
      destruct (IH _ _ H) as (n & Hn & Hsteps & Hy & Hbefore).
      exists (S n). split; [lia|]. repeat split; auto.
      * rewrite steps_S, Hb. exact Hsteps.
      * intros [|k] Hk.
        -- exists s. auto.
        -- destruct (Hbefore k) as (sk & Hsk & Hyk); [lia|].
           exists sk. rewrite steps_S, Hb. auto.
    + rewrite (while_loop_exit _ _ _ E) in H. injection H as <-.
      exists 0%nat. repeat split; auto; [lia|]. intros k Hk. lia.
Qed.

Lemma lands_while_loop (p : params) (n : nat) :
  forall fuel s s', n <= fuel -> lands_after libm p s n s' ->
                    while_loop libm fuel p s = Some (Ok s').
Proof.
  induction n as [|n IH]; intros fuel s s' Hle (Hsteps & Hy & Hbefore).
  - simpl in Hsteps. injection Hsteps as <-. apply while_loop_exit. exact Hy.
  - destruct fuel as [|fuel]; [lia|].
    destruct (Hbefore 0%nat) as (s0 & Hs0 & Hy0); [lia|].
    simpl in Hs0. injection Hs0 as <-.
    rewrite (while_loop_pass _ _ _ Hy0).
    rewrite steps_S in Hsteps. apply bind_Ok_inv in Hsteps.
    destruct Hsteps as (s1 & Hb & Hsteps). rewrite Hb.
    apply IH; [lia|]. repeat split; auto.
    intros k Hk. destruct (Hbefore (S k)) as (sk & Hsk & Hyk); [lia|].
    rewrite steps_S, Hb in Hsk. exists sk. auto.
Qed.

(** A run returns its result exactly when the loop is entered, some
    pass (the n-th, within the fuel) computes the first y that fails the
    test [y >= 0], and no operation raises before that; the result then
    holds the complete trajectory of n + 1 samples. *)
Lemma returns_iff_some_pass_lands (p : params) (fuel : nat) (r : SimulationResult.t) :
  simulate libm p fuel = Some (Ok r) <->
  exists s0 n s',
    initial_locals libm p = Ok s0 /\
    n <= fuel /\
    lands_after libm p s0 n s' /\
    make_result p s' = Ok r /\
    length (SimulationResult.trajectory r) = S n.
Proof.
  split.
  - intros H. destruct (simulate_inv _ _ _ H) as (s0 & s' & H0 & Hw & Hr).
    destruct (while_loop_lands _ _ _ _ Hw) as (n & Hn & Hl).
    exists s0, n, s'. repeat split; auto; try apply Hl.
    destruct (make_result_inv _ _ _ Hr) as (fs & _ & ->). simpl.
    destruct Hl as (Hsteps & _). rewrite (steps_length _ _ _ _ Hsteps).
    destruct (initial_locals_inv _ _ H0) as (c & sn & speed & _ & _ & _ & ->).
    simpl. lia.
  - intros (s0 & n & s' & H0 & Hn & Hl & Hr & _).
    unfold simulate, integrate. rewrite H0.
    rewrite (lands_while_loop _ _ _ _ _ Hn Hl). congruence.
Qed.


(** *** Termination *)




(** The states of a run that passes the check [lands_descending] are
    closed under the loop body, and every pass from one of them descends. *)
Lemma lands_descending_step (p : params) (s : locals) :
  (exists fuel, lands_descending libm fuel p s = true) ->
  (0 <=? y s) = true ->
  exists s1,
    loop_body libm p s = Ok s1 /\ descends s s1 /\
    exists fuel, lands_descending libm fuel p s1 = true.
Proof.
  intros (fuel & H) Hg. destruct fuel as [|fuel]; simpl in H; rewrite Hg in H;
    [discriminate|].
  destruct (loop_body libm p s) as [s1|e]; [|discriminate].
  apply andb_prop in H. destruct H as [Hv H].
  exists s1. split; [reflexivity|]. split; [left; exact Hv|].
  exists fuel. exact H.
Qed.


(** *** Which operations can raise *)

Lemma float_div_raise (a b : float) (e : exn) :
  Py.float_div a b = Raise e -> e = ZeroDivisionError /\ (b =? 0) = true.
Proof.
  unfold Py.float_div. destruct (b =? 0); [|discriminate].
  intros H. injection H as <-. auto.
Qed.

Lemma float_pow2_raise (a : float) (e : exn) :
  Py.float_pow2 libm a = Raise e ->
  e = OverflowError /\ is_nan a = false /\ is_infinity a = false.
Proof.
  unfold Py.float_pow2.
  destruct (is_nan a); [discriminate|].
  destruct (is_infinity a); [discriminate|].
  destruct (a =? 0); [discriminate|].
  destruct (_ =? 1); [discriminate|].
  destruct (is_infinity _); [|discriminate].
  intros H. injection H as <-. auto.
Qed.

Lemma math_1_raise (f : float -> float) (a : float) (e : exn) :
  Py.math_1 f a = Raise e -> e = ValueError.
Proof.
  unfold Py.math_1. destruct (_ && _); [congruence|].
  destruct (_ && _); [congruence | discriminate].
Qed.

Lemma speed_and_drag_raise (p : params) (s : locals) (e : exn) :
  speed_and_drag libm p s = Raise e -> e = OverflowError \/ e = ValueError.
Proof.
  unfold speed_and_drag, calculate_drag_force. intros H.
  apply bind_Raise_inv in H. destruct H as [H|(vx2 & _ & H)].
  { apply float_pow2_raise in H. tauto. }
  apply bind_Raise_inv in H. destruct H as [H|(vy2 & _ & H)].
  { apply float_pow2_raise in H. tauto. }
  apply bind_Raise_inv in H. destruct H as [H|(v & _ & H)].
  { apply math_1_raise in H. tauto. }
  apply bind_Raise_inv in H. destruct H as [H|(drag & _ & H)]; [|discriminate].
  apply bind_Raise_inv in H. destruct H as [H|(v2 & _ & H)]; [|discriminate].
  apply float_pow2_raise in H. tauto.
Qed.

(** C7. The division by [mass * v] is evaluated only when [v > 0] holds;
    when it does not, the acceleration is (0, -g) and nothing is divided.
    A pass raises ZeroDivisionError exactly when [v > 0] and the product
    [mass * v] is zero; the other operations that can raise are [**]
    (OverflowError) and [math.sqrt] (ValueError). *)
Theorem division_only_under_guard (p : params) (s : locals) :
  (forall v drag,
     speed_and_drag libm p s = Ok (v, drag) -> (0 <? v) = false ->
     acceleration libm p s = Ok (0, - g)) /\
  (forall v drag,
     speed_and_drag libm p s = Ok (v, drag) -> (0 <? v) = true ->
     (mass p * v =? 0) = false ->
     acceleration libm p s =
       Ok (- drag * vx s / (mass p * v), - g - drag * vy s / (mass p * v))) /\
  (loop_body libm p s = Raise ZeroDivisionError <->
   exists v drag,
     speed_and_drag libm p s = Ok (v, drag) /\ (0 <? v) = true /\
     (mass p * v =? 0) = true) /\
  (forall e, loop_body libm p s = Raise e ->
             e = ZeroDivisionError \/ e = OverflowError \/ e = ValueError).
Proof.
  split; [|split; [|split]].
  - intros v drag Hvd Hv. unfold acceleration. rewrite Hvd. simpl.
    rewrite Hv. reflexivity.
  - intros v drag Hvd Hv Hm. unfold acceleration. rewrite Hvd. simpl.
    rewrite Hv. unfold Py.float_div. rewrite Hm. reflexivity.
  - split.
    + intros H. unfold loop_body in H. apply bind_Raise_inv in H.
      destruct H as [H|([ax ay] & _ & H)].
      * unfold acceleration in H. apply bind_Raise_inv in H.
        destruct H as [H|([v drag] & Hvd & H)].
        { apply speed_and_drag_raise in H. destruct H; discriminate. }
        exists v, drag. split; [exact Hvd|].
        destruct (0 <? v); [|discriminate]. split; [reflexivity|].
        apply bind_Raise_inv in H. destruct H as [H|(ax & _ & H)].
        { apply float_div_raise in H. tauto. }
        apply bind_Raise_inv in H. destruct H as [H|(ay & _ & H)]; [|discriminate].
        apply bind_Raise_inv in H. destruct H as [H|(q & _ & H)]; [|discriminate].
        apply float_div_raise in H. tauto.
      * apply bind_Raise_inv in H. destruct H as [H|(? & _ & H)]; [|discriminate].
        apply math_1_raise in H. discriminate.
    + intros (v & drag & Hvd & Hv & Hm).
      unfold loop_body, acceleration. rewrite Hvd. simpl. rewrite Hv.
      unfold Py.float_div. rewrite Hm. reflexivity.
  - intros e H. unfold loop_body in H. apply bind_Raise_inv in H.
    destruct H as [H|([ax ay] & _ & H)].
    + unfold acceleration in H. apply bind_Raise_inv in H.
      destruct H as [H|([v drag] & Hvd & H)].
      { apply speed_and_drag_raise in H. tauto. }
      destruct (0 <? v); [|discriminate].
      apply bind_Raise_inv in H. destruct H as [H|(ax & _ & H)].
      { apply float_div_raise in H. tauto. }
      apply bind_Raise_inv in H. destruct H as [H|(ay & _ & H)]; [|discriminate].
      apply bind_Raise_inv in H. destruct H as [H|(q & _ & H)]; [|discriminate].
      apply float_div_raise in H. tauto.
    + apply bind_Raise_inv in H. destruct H as [H|(? & _ & H)]; [|discriminate].
      apply math_1_raise in H. tauto.
Qed.

(** *** The fuel of the model *)

Lemma simulate_fuel (p : params) (fuel fuel' : nat) (o o' : outcome SimulationResult.t) :
  simulate libm p fuel = Some o -> simulate libm p fuel' = Some o' -> o = o'.
Proof.
  unfold simulate, integrate.
  destruct (initial_locals libm p) as [s0|e]; [|congruence].
  intros H H'.
  assert (Hw : forall f f' a a', f <= f' ->
             while_loop libm f p s0 = Some a -> while_loop libm f' p s0 = Some a' ->
             a = a').
  { intros f f' a a' Hle Ha Ha'.
    rewrite (while_loop_fuel p f f' _ _ Hle Ha) in Ha'. congruence. }
  destruct (while_loop libm fuel p s0) as [a|] eqn:E; [|discriminate].
  destruct (while_loop libm fuel' p s0) as [a'|] eqn:E'; [|discriminate].
  assert (a = a').
  { destruct (Nat.le_ge_cases fuel fuel') as [Hle|Hle].
    - apply (Hw _ _ _ _ Hle E E').
    - symmetry. apply (Hw _ _ _ _ Hle E' E). }
  subst a'. destruct a; congruence.
Qed.

(** *** The drag coefficient *)

Lemma loop_body_with_Cd (p : params) (c1 c2 : float) (s : locals) :
  0.5 * rho p * c1 * A p = 0.5 * rho p * c2 * A p ->
  loop_body libm (with_Cd p c1) s = loop_body libm (with_Cd p c2) s.
Proof.
  intros H.
  unfold loop_body, acceleration, speed_and_drag, calculate_drag_force.
  simpl. rewrite H. reflexivity.
Qed.

Lemma while_loop_with_Cd (p : params) (c1 c2 : float) :
  0.5 * rho p * c1 * A p = 0.5 * rho p * c2 * A p ->
  forall fuel s,
    while_loop libm fuel (with_Cd p c1) s = while_loop libm fuel (with_Cd p c2) s.
Proof.
  intros H. induction fuel as [|fuel IH]; intros s; simpl; [reflexivity|].
  rewrite (loop_body_with_Cd p c1 c2 s H).
  destruct (0 <=? y s); [|reflexivity].
  destruct (loop_body libm (with_Cd p c2) s); [apply IH | reflexivity].
Qed.

Lemma integrate_with_Cd (p : params) (c1 c2 : float) (fuel : nat) :
  0.5 * rho p * c1 * A p = 0.5 * rho p * c2 * A p ->
  integrate libm (with_Cd p c1) fuel = integrate libm (with_Cd p c2) fuel.
Proof.
  intros H. unfold integrate.
  change (initial_locals libm (with_Cd p c1)) with (initial_locals libm (with_Cd p c2)).
  destruct (initial_locals libm (with_Cd p c2)) as [s0|e]; [|reflexivity].
  apply (while_loop_with_Cd p c1 c2 H).
Qed.

(** The drag coefficient reaches a run only through the product
    0.5 * rho * Cd * A: two runs that differ only in the coefficient and
    for which this product is the same float give the same outcome,
    sample for sample, so the same range. *)
Lemma drag_coefficient_through_product (p : params) (c1 c2 : float) (fuel : nat) :
  0.5 * rho p * c1 * A p = 0.5 * rho p * c2 * A p ->
  simulate libm (with_Cd p c1) fuel = simulate libm (with_Cd p c2) fuel.
Proof.
  intros H. unfold simulate. rewrite (integrate_with_Cd p c1 c2 fuel H).
  destruct (integrate libm (with_Cd p c2) fuel) as [[s|e]|]; reflexivity.
Qed.

Lemma zero_mul_positive (c : float) :
  (0 <? c) = true -> (c <? infinity) = true -> 0 * c = 0.
Proof.
  intros Hpos Hfin. apply Prim2SF_inj. rewrite mul_spec.
  rewrite FloatOrderFacts.ltb_rank in Hpos, Hfin. unfold FloatOrder.rank in *.
  change (Prim2SF 0) with (S754_zero false) in *.
  change (Prim2SF infinity) with (S754_infinity false) in *.
  destruct (Prim2SF c) as [sc|sc| |sc m e]; try destruct sc; try discriminate.
  reflexivity.
Qed.

(** Without air the coefficient does not matter at all. *)
Corollary airless_runs_coincide (p : params) (c1 c2 : float) (fuel : nat) :
  rho p = 0 ->
  (0 <? c1) = true -> (c1 <? infinity) = true ->
  (0 <? c2) = true -> (c2 <? infinity) = true ->
  simulate libm (with_Cd p c1) fuel = simulate libm (with_Cd p c2) fuel.
Proof.
  intros Hrho H1 H1' H2 H2'. unfold simulate.
  rewrite (integrate_with_Cd p c1 c2 fuel).
  - destruct (integrate libm (with_Cd p c2) fuel) as [[s|e]|]; reflexivity.
  - rewrite Hrho. change (0.5 * 0) with 0.
    rewrite (zero_mul_positive c1 H1 H1'), (zero_mul_positive c2 H2 H2').
    reflexivity.
Qed.

End EngineFacts.

Lemma euler_step_explicit_witness :
  g = 9.81 /\
  exists ax ay,
    acceleration sample_libm default_params launch = Ok (ax, ay) /\
    vx after_one_pass = vx launch + ax * dt default_params /\
    vy after_one_pass = vy launch + ay * dt default_params /\
    x after_one_pass = x launch + vx after_one_pass * dt default_params /\
    y after_one_pass = y launch + vy after_one_pass * dt default_params /\
    t after_one_pass = t launch + dt default_params.
Proof.
  apply (euler_step_explicit sample_libm default_params launch after_one_pass).
  vm_compute. reflexivity.
Defined.

Lemma drag_and_acceleration_witness :
  exists vx2 vy2 v v2 drag,
    Py.float_pow2 sample_libm (vx launch) = Ok vx2 /\
    Py.float_pow2 sample_libm (vy launch) = Ok vy2 /\
    Py.math_sqrt (vx2 + vy2) = Ok v /\
    v = PrimFloat.sqrt (vx2 + vy2) /\
    Py.float_pow2 sample_libm v = Ok v2 /\
    calculate_drag_force sample_libm v default_params = Ok drag /\
    drag = 0.5 * rho default_params * Cd default_params * A default_params * v2 /\
    ((0 <? v) = true ->
     -0x1.b5d72c3f512b7p+2 = - drag * vx launch / (mass default_params * v) /\
     -0x1.0a6b8d9f3073dp+4 = - g - drag * vy launch / (mass default_params * v)).
Proof.
  apply (drag_and_acceleration sample_libm default_params launch).
  vm_compute. reflexivity.
Defined.

(** ** Runs on concrete parameters *)

Lemma exit_sample_recorded_witness :
  exists earlier xl yl sp,
    SimulationResult.trajectory coarse_result = earlier ++ [(xl, yl)] /\
    ((yl <? 0) = true \/ is_nan yl = true) /\
    Forall (fun q => (0 <=? snd q) = true) earlier /\
    SimulationResult.range coarse_result = xl /\
    SimulationResult.speeds coarse_result =
      sp ++ [SimulationResult.final_speed coarse_result] /\
    SimulationResult.dt coarse_result = dt coarse_params.
Proof.
  apply (exit_sample_recorded sample_libm coarse_params 20).
  vm_compute. reflexivity.
Defined.

(** With valid parameters and a positive step the run returns, and the
    sample that ended it has a NaN height, which is not negative. *)
Lemma dense_air_last_height_nan :
  valid_parameters dense_params = true /\
  (0 <? dt dense_params) = true /\
  simulate sample_libm dense_params 1 =
    Some (Ok {| SimulationResult.dt := 1;
                SimulationResult.trajectory := [(0, 0); (neg_infinity, nan)];
                SimulationResult.speeds := [1; nan];
                SimulationResult.range := neg_infinity;
                SimulationResult.max_height := 0;
                SimulationResult.final_speed := nan |}) /\
  (nan <? 0) = false.
Proof. vm_compute. repeat split. Qed.

Lemma initial_sample_and_lengths_witness :
  exists s0,
    initial_locals sample_libm coarse_params = Ok s0 /\
    vx s0 = v0 coarse_params * libm_cos sample_libm (Py.math_radians (angle coarse_params)) /\
    vy s0 = v0 coarse_params * libm_sin sample_libm (Py.math_radians (angle coarse_params)) /\
    length (SimulationResult.trajectory coarse_result) =
      length (SimulationResult.speeds coarse_result) /\
    2 <= length (SimulationResult.trajectory coarse_result) /\
    nth_error (SimulationResult.trajectory coarse_result) 0 = Some (0, 0) /\
    nth_error (SimulationResult.speeds coarse_result) 0 =
      Some (PrimFloat.sqrt (vx s0 * vx s0 + vy s0 * vy s0)).
Proof.
  apply (initial_sample_and_lengths sample_libm coarse_params 20).
  vm_compute. reflexivity.
Defined.

(** The application's defaults (100 m/s at 45 degrees, step 0.01): the
    run returns after 1229 passes and its first speed is
    99.99999999999999, not the initial speed 100. *)
Lemma default_first_speed_not_v0 :
  (0 <? v0 default_params) = true /\
  (0 <? dt default_params) = true /\
  exists r,
    simulate sample_libm default_params 1229 = Some (Ok r) /\
    nth_error (SimulationResult.speeds r) 0 = Some 99.999999999999986 /\
    (99.999999999999986 =? v0 default_params) = false.
Proof.
  split; [reflexivity|]. split; [reflexivity|].
  destruct (simulate sample_libm default_params 1229) as [[r|e]|] eqn:E;
    vm_compute in E; try discriminate.
  exists r. split; [reflexivity|].
  injection E as <-. split; reflexivity.
Qed.

(** The first speed can be far from the initial speed: at 1e-200 m/s the
    squares underflow and it is 0.0; at 1.35e154 m/s and 45 degrees their
    sum overflows and it is infinite. Both runs return. *)
Example first_speed_zero_or_infinite :
  (valid_parameters (mkParams 1e-200 0 1 1.29 0.15 0.01 0.01) = true /\
   exists r,
     simulate sample_libm (mkParams 1e-200 0 1 1.29 0.15 0.01 0.01) 1 = Some (Ok r) /\
     nth_error (SimulationResult.speeds r) 0 = Some 0) /\
  (valid_parameters (mkParams 1.35e154 45 1 1.29 0.15 0.01 0.01) = true /\
   exists r,
     simulate sample_libm (mkParams 1.35e154 45 1 1.29 0.15 0.01 0.01) 1 = Some (Ok r) /\
     nth_error (SimulationResult.speeds r) 0 = Some infinity).
Proof.
  split; (split; [reflexivity|]); eexists; (split; [vm_compute; reflexivity|]);
    reflexivity.
Qed.

Lemma max_height_is_maximum_witness :
  is_nan (SimulationResult.max_height coarse_result) = false /\
  (forall q, In q (SimulationResult.trajectory coarse_result) ->
             is_nan (snd q) = false ->
             (snd q <=? SimulationResult.max_height coarse_result) = true) /\
  (exists q, In q (SimulationResult.trajectory coarse_result) /\
             snd q = SimulationResult.max_height coarse_result).
Proof.
  apply (max_height_is_maximum sample_libm coarse_params 20).
  vm_compute. reflexivity.
Defined.

(** The run on [dense_params] returns with a sample whose height is NaN:
    [max_height >= y] is false for it. *)
Lemma dense_air_height_not_below_max :
  exists r,
    simulate sample_libm dense_params 1 = Some (Ok r) /\
    In (neg_infinity, nan) (SimulationResult.trajectory r) /\
    SimulationResult.max_height r = 0 /\
    (nan <=? SimulationResult.max_height r) = false.
Proof.
  eexists. split; [vm_compute; reflexivity|].
  simpl. repeat split. right. left. reflexivity.
Qed.

(** *** Parameters that are valid and give no result *)





(** The run on [coarse_params], 45 degrees with drag: each of its eleven
    passes lowers the vertical velocity. *)
Example coarse_run_descends (k : nat) (s s1 : locals) :
  k < 11 ->
  steps sample_libm k coarse_params coarse_launch = Ok s ->
  loop_body sample_libm coarse_params s = Ok s1 ->
  (0 <=? y s) = true /\ (vy s1 <? vy s) = true /\ descends s s1.
Proof.
  intros Hk Hs Hb.
  do 11 (destruct k as [|k];
         [vm_compute in Hs; injection Hs as <-;
          vm_compute in Hb; injection Hb as <-;
          split; [reflexivity|]; split; [reflexivity|]; left; reflexivity|]).
  lia.
Qed.

(** So does each of the 1229 passes of the run on the application's
    defaults. *)
Example default_run_descends :
  initial_locals sample_libm default_params = Ok launch /\
  lands_descending sample_libm 1229 default_params launch = true /\
  forall s,
    (exists fuel, lands_descending sample_libm fuel default_params s = true) ->
    (0 <=? y s) = true ->
    exists s1,
      loop_body sample_libm default_params s = Ok s1 /\ descends s s1 /\
      exists fuel, lands_descending sample_libm fuel default_params s1 = true.
Proof.
  split; [vm_compute; reflexivity|]. split; [vm_compute; reflexivity|].
  intros s. apply lands_descending_step.
Qed.

(** A run that does return on the application's defaults. *)
Example default_run_returns :
  exists r,
    simulate sample_libm default_params 1229 = Some (Ok r) /\
    length (SimulationResult.trajectory r) = 1230%nat /\
    SimulationResult.range r = 602.81496477907308 /\
    SimulationResult.max_height r = 186.46981257063152.
Proof.
  destruct (simulate sample_libm default_params 1229) as [[r|e]|] eqn:E;
    vm_compute in E; try discriminate.
  exists r. split; [reflexivity|]. injection E as <-. repeat split.
Qed.

(** Two operations of the loop that are not total on valid parameters:
    [vx ** 2] raises OverflowError on [fast_params]; on [light_params]
    the mass and the speed are positive, their product underflows to
    zero, and the guarded division raises ZeroDivisionError. *)
Lemma positive_mass_division_by_zero :
  valid_parameters fast_params = true /\
  simulate sample_libm fast_params 1 = Some (Raise OverflowError) /\
  valid_parameters light_params = true /\
  exists s0 v drag,
    initial_locals sample_libm light_params = Ok s0 /\
    speed_and_drag sample_libm light_params s0 = Ok (v, drag) /\
    (0 <? mass light_params) = true /\
    (0 <? v) = true /\
    mass light_params * v = 0 /\
    loop_body sample_libm light_params s0 = Raise ZeroDivisionError /\
    simulate sample_libm light_params 1 = Some (Raise ZeroDivisionError).
Proof.
  split; [reflexivity|]. split; [vm_compute; reflexivity|].
  split; [reflexivity|].
  do 3 eexists. split; [vm_compute; reflexivity|].
  split; [vm_compute; reflexivity|].
  vm_compute. repeat split.
Qed.

Example airless_runs_with_two_coefficients :
  simulate sample_libm (with_Cd airless_params 0.15) 20 =
  simulate sample_libm (with_Cd airless_params 0.3) 20.
Proof.
  apply (drag_coefficient_through_product sample_libm airless_params 0.15 0.3 20).
  vm_compute. reflexivity.
Qed.

(** Two pairs of runs that differ only in the drag coefficient, all
    parameters positive, horizontal velocity positive throughout. On
    [unit_params] the coefficient is doubled from 1e-20 to 2e-20 and the
    two ranges are equal. On [coarse_params] the coefficient is raised by
    one unit in the last place and the range grows from
    525.5426221498587 to 525.5426221498589. *)
Lemma larger_Cd_range_not_smaller :
  (valid_parameters (with_Cd unit_params 1e-20) = true /\
   valid_parameters (with_Cd unit_params 2e-20) = true /\
   (1e-20 <? 2e-20) = true /\
   exists r1 r2 s1 s2,
     simulate sample_libm (with_Cd unit_params 1e-20) 1 = Some (Ok r1) /\
     simulate sample_libm (with_Cd unit_params 2e-20) 1 = Some (Ok r2) /\
     integrate sample_libm (with_Cd unit_params 1e-20) 1 = Some (Ok s1) /\
     integrate sample_libm (with_Cd unit_params 2e-20) 1 = Some (Ok s2) /\
     vx s1 = 1 /\ vx s2 = 1 /\
     SimulationResult.range r1 = 1 /\ SimulationResult.range r2 = 1 /\
     (SimulationResult.range r2 <? SimulationResult.range r1) = false) /\
  (valid_parameters (with_Cd coarse_params 0x1.33333333335cdp-3) = true /\
   valid_parameters (with_Cd coarse_params 0x1.33333333335cep-3) = true /\
   (0x1.33333333335cdp-3 <? 0x1.33333333335cep-3) = true /\
   exists r1 r2,
     simulate sample_libm (with_Cd coarse_params 0x1.33333333335cdp-3) 11 = Some (Ok r1) /\
     simulate sample_libm (with_Cd coarse_params 0x1.33333333335cep-3) 11 = Some (Ok r2) /\
     SimulationResult.range r1 = 0x1.06c574a481dd4p+9 /\
     SimulationResult.range r2 = 0x1.06c574a481dd5p+9 /\
     (SimulationResult.range r1 <? SimulationResult.range r2) = true).
Proof.
  split.
  - do 3 (split; [reflexivity|]).
    do 4 eexists.
    do 4 (split; [vm_compute; reflexivity|]).
    simpl. repeat split.
  - do 3 (split; [reflexivity|]).
    do 2 eexists.
    do 2 (split; [vm_compute; reflexivity|]).
    simpl. repeat split.
Qed.

Lemma elapsed_time_repeated_sum_witness :
  t coarse_final = repeated_add (length (trajectory coarse_final) - 1) (dt coarse_params) /\
  exists r,
    make_result coarse_params coarse_final = Ok r /\
    SimulationResult.trajectory r = trajectory coarse_final /\
    flight_time r = float_of_nat (length (trajectory coarse_final)) * dt coarse_params.
Proof.
  apply (elapsed_time_repeated_sum sample_libm coarse_params 20).
  vm_compute. reflexivity.
Defined.

(** The application's defaults: 1230 samples; t on exit is
    12.289999999999782 while 1229 * 0.01 is 12.290000000000001, and the
    table's flight time exceeds t by 0.010000000000218279, not by 0.01. *)
Lemma default_time_not_a_product :
  exists s' r,
    integrate sample_libm default_params 1229 = Some (Ok s') /\
    make_result default_params s' = Ok r /\
    length (trajectory s') = 1230%nat /\
    t s' = 12.289999999999782 /\
    float_of_nat (1230 - 1) * dt default_params = 12.290000000000001 /\
    (t s' =? float_of_nat (1230 - 1) * dt default_params) = false /\
    flight_time r - t s' = 0.010000000000218279 /\
    (flight_time r - t s' =? dt default_params) = false.
Proof.
  destruct (integrate sample_libm default_params 1229) as [[s'|e]|] eqn:E;
    vm_compute in E; try discriminate.
  injection E as <-.
  eexists. eexists. split; [reflexivity|].
  split; [vm_compute; reflexivity|].
  vm_compute. repeat split.
Qed.

(** With a step of 1e308 the run has two samples and no rounding in t,
    yet the table's flight time overflows: it is infinite, and so is its
    distance from t. *)
Example huge_step_flight_time_infinite :
  valid_parameters (mkParams 100 45 1 1.29 0.15 0.01 1e308) = true /\
  exists s' r,
    integrate sample_libm (mkParams 100 45 1 1.29 0.15 0.01 1e308) 1 = Some (Ok s') /\
    make_result (mkParams 100 45 1 1.29 0.15 0.01 1e308) s' = Ok r /\
    length (trajectory s') = 2%nat /\
    t s' = 1e308 /\
    flight_time r = infinity /\
    flight_time r - t s' = infinity.
Proof.
  split; [reflexivity|]. do 2 eexists.
  split; [vm_compute; reflexivity|]. split; [vm_compute; reflexivity|].
  vm_compute. repeat split.
Qed.

(** ** Runs that do not depend on the choice of C library

    The runs on [dense_params] and [unit_params] only ask the C library
    for [cos 0] and [sin 0], which the C standard fixes; those on
    [fast_params] and [light_params] ask in addition for one value of
    [pow] each. *)

Section AnyLibm.
Variable libm : Libm.
Hypothesis cos_0 : libm_cos libm 0 = 1.
Hypothesis sin_0 : libm_sin libm 0 = 0.

Lemma initial_locals_horizontal (p : params) :
  angle p = 0 ->
  initial_locals libm p =
  (speed <- Py.math_sqrt (v0 p * 1 * (v0 p * 1) + v0 p * 0 * (v0 p * 0)) ;;
   Ok {| x := 0; y := 0; vx := v0 p * 1; vy := v0 p * 0; t := 0;
         trajectory := [(0, 0)]; speeds := [speed]; max_height := 0 |}).
Proof.
  intros Ha. unfold initial_locals, Py.math_cos, Py.math_sin, Py.math_1.
  rewrite Ha. change (Py.math_radians 0) with 0. rewrite cos_0, sin_0.
  reflexivity.
Qed.

Lemma dense_run_any_libm :
  simulate libm dense_params 1 =
  Some (Ok {| SimulationResult.dt := 1;
              SimulationResult.trajectory := [(0, 0); (neg_infinity, nan)];
              SimulationResult.speeds := [1; nan];
              SimulationResult.range := neg_infinity;
              SimulationResult.max_height := 0;
              SimulationResult.final_speed := nan |}).
Proof.
  unfold simulate, integrate.
  rewrite initial_locals_horizontal by reflexivity.
  vm_compute. reflexivity.
Qed.

Lemma unit_run_any_libm (c : float) :
  c = 1e-20 \/ c = 2e-20 ->
  exists r,
    simulate libm (with_Cd unit_params c) 1 = Some (Ok r) /\
    SimulationResult.range r = 1.
Proof.
  intros [-> | ->]; eexists; unfold simulate, integrate;
    (rewrite initial_locals_horizontal by reflexivity);
    (split; [vm_compute; reflexivity | reflexivity]).
Qed.

Lemma fast_run_any_libm :
  is_infinity (libm_pow libm 1e200 2) = true ->
  simulate libm fast_params 1 = Some (Raise OverflowError).
Proof.
  intros Hpow. unfold simulate, integrate.
  rewrite initial_locals_horizontal by reflexivity.
  change (Py.math_sqrt (v0 fast_params * 1 * (v0 fast_params * 1)
                        + v0 fast_params * 0 * (v0 fast_params * 0)))
    with (@Ok float infinity).
  cbv [bind]. rewrite while_loop_pass by reflexivity.
  unfold loop_body, acceleration, speed_and_drag. cbv [vx vy].
  change (Py.float_pow2 libm (v0 fast_params * 1))
    with (if is_infinity (libm_pow libm 1e200 2)
          then @Raise float OverflowError else Ok (libm_pow libm 1e200 2)).
  rewrite Hpow. reflexivity.
Qed.

Lemma light_run_any_libm :
  libm_pow libm 0.25 2 = 0.0625 ->
  simulate libm light_params 1 = Some (Raise ZeroDivisionError).
Proof.
  intros Hpow. unfold simulate, integrate.
  rewrite initial_locals_horizontal by reflexivity.
  change (Py.math_sqrt (v0 light_params * 1 * (v0 light_params * 1)
                        + v0 light_params * 0 * (v0 light_params * 0)))
    with (@Ok float 0.25).
  cbv [bind]. rewrite while_loop_pass by reflexivity.
  unfold loop_body, acceleration, speed_and_drag, calculate_drag_force.
  cbv [vx vy].
  change (Py.float_pow2 libm (v0 light_params * 1))
    with (if is_infinity (libm_pow libm 0.25 2)
          then @Raise float OverflowError else Ok (libm_pow libm 0.25 2)).
  change (Py.float_pow2 libm (v0 light_params * 0)) with (@Ok float 0).
  rewrite Hpow. cbv [bind].
  change (is_infinity 0.0625) with false. cbv iota.
  change (Py.math_sqrt (0.0625 + 0)) with (@Ok float 0.25). cbv iota beta.
  change (Py.float_pow2 libm 0.25)
    with (if is_infinity (libm_pow libm 0.25 2)
          then @Raise float OverflowError else Ok (libm_pow libm 0.25 2)).
  rewrite Hpow. reflexivity.
Qed.

End AnyLibm.

(** * The presentation layer *)

(** ** Slices with a step *)

Module UiFacts.
Import Ui.

Lemma every_nth_length {T : Type} (gap : nat) (l : list T) :
  forall skip,
    length (every_nth gap skip l) =
    if (length l <=? skip)%nat then 0%nat
    else S ((length l - skip - 1) / S gap).
Proof.
  induction l as [|a l IH]; intros skip; [reflexivity|].
  destruct skip as [|skip]; cbn [every_nth length].
  - rewrite IH. cbn [Nat.leb].
    replace (S (length l) - 0 - 1)%nat with (length l) by lia.
    destruct (Nat.leb_spec (length l) gap) as [Hle|Hlt].
    + rewrite Nat.div_small by lia. reflexivity.
    + replace (length l) with ((length l - gap - 1) + 1 * S gap)%nat at 2 by lia.
      rewrite Nat.div_add by lia. f_equal. lia.
  - rewrite IH. cbn [Nat.leb].
    destruct (Nat.leb_spec (length l) skip); reflexivity.
Qed.

Lemma every_nth_nth_error {T : Type} (gap : nat) (l : list T) :
  forall skip i,
    nth_error (every_nth gap skip l) i = nth_error l (skip + i * S gap).
Proof.
  induction l as [|a l IH]; intros skip i.
  - cbn [every_nth]. destruct i, (skip + _)%nat; reflexivity.
  - destruct skip as [|skip]; cbn [every_nth].
    + destruct i as [|i]; [reflexivity|].
      cbn [nth_error]. rewrite IH.
      replace (0 + S i * S gap)%nat with (S (gap + i * S gap)) by lia.
      reflexivity.
    + rewrite IH. reflexivity.
Qed.

Lemma every_nth_map {T U : Type} (f : T -> U) (gap : nat) (l : list T) :
  forall skip, every_nth gap skip (map f l) = map f (every_nth gap skip l).
Proof.
  induction l as [|a l IH]; intros skip; [reflexivity|].
  destruct skip as [|skip]; cbn [every_nth map]; rewrite IH; reflexivity.
Qed.

Lemma every_nth_incl {T : Type} (gap : nat) (l : list T) :
  forall skip a, In a (every_nth gap skip l) -> In a l.
Proof.
  induction l as [|b l IH]; intros skip a H; [exact H|].
  destruct skip as [|skip]; cbn [every_nth] in H.
  - destruct H as [H|H]; [left; exact H | right; eapply IH; exact H].
  - right. eapply IH. exact H.
Qed.

(** The step of line 229 is at least 1 whenever line 228 lets it be
    computed, and the slice then has between 800 and 1599 elements. *)
Lemma slice_count {T : Type} (l : list T) :
  (max_frames < length l)%nat ->
  exists l',
    slice_step (length l / max_frames) l = Ok l' /\
    length l' = S ((length l - 1) / (length l / max_frames)) /\
    (max_frames <= length l' < 2 * max_frames)%nat.
Proof.
  unfold max_frames. intros Hn.
  set (n := length l) in *.
  assert (Hq : (1 <= n / 800)%nat) by (apply Nat.div_le_lower_bound; lia).
  destruct (n / 800)%nat as [|gap] eqn:Eq; [lia|].
  eexists. split; [reflexivity|].
  rewrite every_nth_length. fold n.
  destruct (Nat.leb_spec n 0) as [H0|_]; [lia|].
  replace (n - 0 - 1)%nat with (n - 1)%nat by lia.
  split; [reflexivity|].
  assert (Hdm := Nat.div_mod_eq n 800).
  assert (Hm := Nat.mod_upper_bound n 800).
  rewrite Eq in Hdm.
  assert (799 <= (n - 1) / S gap)%nat by (apply Nat.div_le_lower_bound; lia).
  assert ((n - 1) / S gap < 1599)%nat by (apply Nat.Div0.div_lt_upper_bound; lia).
  lia.
Qed.

End UiFacts.

(** ** More on the order and the arithmetic of binary64 values *)

Module FloatMore.
Import FloatOrder FloatOrderFacts.

Lemma leb_trans (a b c : float) :
  (a <=? b) = true -> (b <=? c) = true -> (a <=? c) = true.
Proof.
  rewrite !leb_rank.
  destruct (rank a) as [ka|], (rank b) as [kb|], (rank c) as [kc|];
    try discriminate.
  intros H1 H2.
  assert (lex3 ka kc <> Gt).
  { destruct ka as [[a1 a2] a3], kb as [[b1 b2] b3], kc as [[c1 c2] c3].
    revert H1 H2. lex_cases. }
  destruct (lex3 ka kc); congruence.
Qed.

Lemma ltb_leb (a b : float) : (a <? b) = true -> (a <=? b) = true.
Proof.
  rewrite leb_rank, ltb_rank.
  destruct (rank a) as [ka|], (rank b) as [kb|]; try discriminate.
  destruct (lex3 ka kb); congruence.
Qed.

(** [0.0 + a * 0.0] is [0.0] when [a] is finite and NaN otherwise. *)
Lemma zero_plus_times_zero (a : float) : 0 + a * 0 = 0 \/ 0 + a * 0 = nan.
Proof.
  assert (H : Prim2SF (0 + a * 0) = S754_zero false \/ Prim2SF (0 + a * 0) = S754_nan).
  { rewrite add_spec, mul_spec.
    change (Prim2SF 0) with (S754_zero false).
    destruct (Prim2SF a) as [sa|sa| |sa m e]; try destruct sa; auto. }
  destruct H as [H|H]; [left | right]; apply Prim2SF_inj; rewrite H; reflexivity.
Qed.

Lemma nan_plus (a : float) : nan + a = nan.
Proof.
  apply Prim2SF_inj. rewrite add_spec.
  change (Prim2SF nan) with S754_nan. reflexivity.
Qed.

End FloatMore.

(** ** [max] on a list of floats *)

Lemma fold_max_bounds (l : list float) :
  forall a,
    is_nan a = false ->
    let m := fold_left (fun m b => if m <? b then b else m) l a in
    is_nan m = false /\ (a <=? m) = true /\ In m (a :: l) /\
    (forall b, In b l -> is_nan b = false -> (b <=? m) = true).
Proof.
  induction l as [|b l IH]; intros a Ha; cbn [fold_left].
  - split; [exact Ha|]. split; [apply FloatOrderFacts.leb_refl; exact Ha|].
    split; [left; reflexivity|]. intros b [].
  - destruct (a <? b) eqn:E.
    + destruct (FloatOrderFacts.ltb_true_not_nan _ _ E) as [_ Hb].
      destruct (IH b Hb) as (Hm & Hbm & Hin & Hall).
      split; [exact Hm|]. split; [|split].
      * apply FloatMore.leb_trans with b; [apply FloatMore.ltb_leb|]; assumption.
      * right. exact Hin.
      * intros c [<-|Hc] Hnan; auto.
    + destruct (IH a Ha) as (Hm & Ham & Hin & Hall).
      split; [exact Hm|]. split; [exact Ham|]. split.
      * destruct Hin as [Hin|Hin]; [left; exact Hin | right; right; exact Hin].
      * intros c [<-|Hc] Hnan; auto.
        apply FloatMore.leb_trans with a; [|exact Ham].
        apply FloatOrderFacts.ltb_false_leb; assumption.
Qed.

(** ** The points handed to the animation *)

Lemma combine_fst_snd {T U : Type} (l : list (T * U)) :
  combine (map fst l) (map snd l) = l.
Proof.
  induction l as [|[a b] l IH]; [reflexivity|]. simpl. rewrite IH. reflexivity.
Qed.

Lemma displayed_points_cases (xs ys : list float) :
  ((length xs <= Ui.max_frames)%nat /\ Ui.displayed_points xs ys = Ok (xs, ys)) \/
  ((Ui.max_frames < length xs)%nat /\
   exists gap,
     (length xs / Ui.max_frames)%nat = S gap /\
     Ui.displayed_points xs ys = Ok (Ui.every_nth gap 0 xs, Ui.every_nth gap 0 ys)).
Proof.
  unfold Ui.displayed_points.
  destruct (Nat.ltb_spec Ui.max_frames (length xs)) as [Hlt|Hle].
  - right. split; [exact Hlt|].
    destruct (UiFacts.slice_count xs Hlt) as (l' & Hs & _).
    destruct (length xs / Ui.max_frames)%nat as [|gap]; [discriminate|].
    exists gap. split; reflexivity.
  - left. split; [exact Hle | reflexivity].
Qed.


(** X2. The points handed to the animation are samples of the
    trajectory, x and y of the same sample together: point number k is
    sample number k * step (step = n // 800 when there are n > 800
    samples, 1 otherwise). The first sample is always among them; the
    last point is sample ((n - 1) // step) * step, which is the landing
    sample only when step divides n - 1. *)
Theorem displayed_points_are_samples
        (traj : list (float * float)) (xs' ys' : list float) :
  Ui.displayed_points (map fst traj) (map snd traj) = Ok (xs', ys') ->
  traj <> [] ->
  exists step,
    step = (if (800 <? length traj)%nat then length traj / 800 else 1)%nat /\
    (1 <= step)%nat /\
    (forall k, nth_error (combine xs' ys') k = nth_error traj (k * step)) /\
    nth_error (combine xs' ys') 0 = nth_error traj 0 /\
    length xs' = S ((length traj - 1) / step) /\
    nth_error (combine xs' ys') (length xs' - 1) =
      nth_error traj ((length traj - 1) / step * step).
Proof.
  intros H Hne.
  assert (Hn : (1 <= length traj)%nat).
  { destruct traj; [congruence | simpl; lia]. }
  destruct (displayed_points_cases (map fst traj) (map snd traj))
    as [[Hle H']|[Hlt (gap & Hgap & H')]];
    rewrite H' in H; injection H as <- <-;
    rewrite length_map in *; unfold Ui.max_frames in *.
  - exists 1%nat. destruct (Nat.ltb_spec 800 (length traj)) as [|_]; [lia|].
    rewrite combine_fst_snd, ?length_map, Nat.div_1_r.
    split; [reflexivity|]. split; [lia|].
    split; [intros k; rewrite Nat.mul_1_r; reflexivity|].
    split; [reflexivity|]. split; [lia|].
    rewrite Nat.mul_1_r. reflexivity.
  - exists (S gap). destruct (Nat.ltb_spec 800 (length traj)) as [_|]; [|lia].
    rewrite !UiFacts.every_nth_map, combine_fst_snd.
    rewrite ?length_map, UiFacts.every_nth_length.
    destruct (Nat.leb_spec (length traj) 0) as [|_]; [lia|].
    replace (length traj - 0 - 1)%nat with (length traj - 1)%nat by lia.
    split; [symmetry; exact Hgap|]. split; [lia|].
    split; [intros k; apply UiFacts.every_nth_nth_error|].
    split; [apply (UiFacts.every_nth_nth_error gap traj 0 0)|].
    split; [reflexivity|].
    rewrite UiFacts.every_nth_nth_error. f_equal. lia.
Qed.

(** X3. The animation never draws the last point it was given: frame i
    draws the first i points, the frames are 0 .. len - 1, so the fullest
    frame draws len - 1 points and no frame contains point len - 1. *)
Theorem last_point_never_drawn (xs ys : list float) (i : nat) :
  In i (Ui.frames xs) ->
  length (fst (Ui.animate xs ys i)) = i /\
  (i <= length xs - 1)%nat /\
  In (length xs - 1)%nat (Ui.frames xs) /\
  nth_error (fst (Ui.animate xs ys i)) (length xs - 1) = None.
Proof.
  unfold Ui.frames, Ui.animate. intros Hi. apply in_seq in Hi. simpl.
  assert (Hl : length (firstn i xs) = i) by (rewrite length_firstn; lia).
  repeat split.
  - exact Hl.
  - lia.
  - apply in_seq. lia.
  - apply nth_error_None. lia.
Qed.

(** ** What the engine hands to the presentation layer *)

Lemma simulate_result_shape (libm : Libm) (p : params) (fuel : nat)
      (r : SimulationResult.t) :
  simulate libm p fuel = Some (Ok r) ->
  (exists tl, SimulationResult.trajectory r = (0, 0) :: tl) /\
  is_nan (SimulationResult.max_height r) = false /\
  (forall q, In q (SimulationResult.trajectory r) -> is_nan (snd q) = false ->
             (snd q <=? SimulationResult.max_height r) = true).
Proof.
  intros H. destruct (simulate_inv _ _ _ _ H) as (s0 & s' & H0 & Hw & Hr).
  destruct (initial_locals_inv _ _ _ H0) as (c & sn & speed & _ & _ & _ & E0).
  assert (Hh : heads_inv speed s0).
  { rewrite E0. exists [], []. simpl. auto. }
  assert (Hm : height_inv s0).
  { rewrite E0. unfold height_inv. simpl. split; [reflexivity|]. split.
    - intros q [<-|[]] _. reflexivity.
    - exists (0, 0). auto. }
  destruct (while_loop_invariant libm p (heads_inv speed)
              (heads_inv_step libm p speed) fuel s0 s' Hh Hw)
    as ((tl & tl' & Ht & _ & _) & _).
  destruct (while_loop_invariant libm p height_inv (height_inv_step libm p)
              fuel s0 s' Hm Hw) as ((Hnan & Hall & _) & _).
  destruct (make_result_inv _ _ _ Hr) as (fs & _ & ->). simpl.
  split; [exists tl; exact Ht|]. split; assumption.
Qed.

(** ** [animate_new_trajectory] *)

Section UiProperties.
Variable libm : Libm.
Variable text : Text.

Lemma item_colors (i : nat) :
  exists c, Ui.item Ui.colors (i mod length Ui.colors) = Ok c /\
            nth_error Ui.colors (i mod 8) = Some c.
Proof.
  unfold Ui.item. change (length Ui.colors) with 8%nat.
  destruct (nth_error Ui.colors (i mod 8)) as [c|] eqn:E.
  - exists c. auto.
  - apply nth_error_None in E. change (length Ui.colors) with 8%nat in E.
    assert (i mod 8 < 8)%nat by (apply Nat.mod_upper_bound; lia). lia.
Qed.

(** On a trajectory that is not empty the colour lookup, the slices and
    the two calls of [max] return, and the method ends in one of three
    ways, decided by the two limits. *)
Lemma animate_new_trajectory_stop_cases (w : Ui.window) (r : SimulationResult.t) :
  SimulationResult.trajectory r <> [] ->
  exists c xs' ys' mx my,
    nth_error Ui.colors (color_index (Ui.core w) mod 8) = Some c /\
    Ui.displayed_points (map fst (SimulationResult.trajectory r))
                        (map snd (SimulationResult.trajectory r)) = Ok (xs', ys') /\
    Ui.py_max xs' = Ok mx /\ Ui.py_max ys' = Ok my /\
    Ui.animate_new_trajectory_stop text w r =
      let w2 :=
        Ui.plot (Ui.advance_color w)
          {| Ui.color := c;
             Ui.label := ("dt=" ++ str_float text (SimulationResult.dt r))%string |} in
      if is_finite (mx * 1.05) then
        if is_finite (my * 1.05) then
          (Ui.set_anim (Ui.set_ylim (Ui.set_xlim w2 (mx * 1.05)) (my * 1.05)) (xs', ys'),
           None)
        else (Ui.set_xlim w2 (mx * 1.05), Some ValueError)
      else (w2, Some ValueError).
Proof.
  intros Hne. unfold Ui.animate_new_trajectory_stop.
  destruct (item_colors (color_index (Ui.core w))) as (c & -> & Hc).
  set (traj := SimulationResult.trajectory r) in *.
  assert (Hd : exists xs' ys',
             Ui.displayed_points (map fst traj) (map snd traj) = Ok (xs', ys') /\
             xs' <> [] /\ ys' <> []).
  { destruct (displayed_points_cases (map fst traj) (map snd traj))
      as [[_ H]|[_ (gap & _ & H)]]; rewrite H; do 2 eexists;
      (split; [reflexivity|]).
    - split; destruct traj; simpl; congruence.
    - split; destruct traj; simpl; congruence. }
  destruct Hd as (xs' & ys' & Hd & Hx & Hy). rewrite Hd.
  destruct xs' as [|x0 xs']; [congruence|].
  destruct ys' as [|y0 ys']; [congruence|].
  eexists c, (x0 :: xs'), (y0 :: ys'), _, _.
  split; [exact Hc|]. split; [reflexivity|].
  split; [reflexivity|]. split; [reflexivity|].
  cbn [Ui.py_max bind]. unfold Ui.check_limit.
  destruct (is_finite (_ * 1.05)); [|reflexivity].
  destruct (is_finite (_ * 1.05)); reflexivity.
Qed.

(** Whether the method raises depends on the result alone, and what it
    raises is ValueError. *)
Lemma animate_new_trajectory_raise (w w0 : Ui.window) (r : SimulationResult.t) (e : exn) :
  Ui.animate_new_trajectory text w r = Raise e ->
  Ui.animate_new_trajectory text w0 r = Raise ValueError.
Proof.
  unfold Ui.animate_new_trajectory, Ui.animate_new_trajectory_stop.
  destruct (item_colors (color_index (Ui.core w))) as (c & -> & _).
  destruct (item_colors (color_index (Ui.core w0))) as (c0 & -> & _).
  destruct (displayed_points_cases (map fst (SimulationResult.trajectory r))
                                   (map snd (SimulationResult.trajectory r)))
    as [[_ H]|[_ (gap & _ & H)]]; rewrite H;
    (match goal with
     | |- context [Ui.py_max ?l] => destruct l as [|x0 xs']
     end; [reflexivity|]);
    cbn [Ui.py_max bind]; unfold Ui.check_limit;
    (destruct (is_finite (_ * 1.05)); [|reflexivity]);
    (match goal with
     | |- context [Ui.py_max ?l] => destruct l as [|y0 ys']
     end; [reflexivity|]);
    cbn [Ui.py_max bind];
    (destruct (is_finite (_ * 1.05)); [discriminate|reflexivity]).
Qed.

Lemma animate_new_trajectory_inv (w w' : Ui.window) (r : SimulationResult.t) :
  SimulationResult.trajectory r <> [] ->
  Ui.animate_new_trajectory text w r = Ok w' ->
  exists c xs' ys' mx my,
    nth_error Ui.colors (color_index (Ui.core w) mod 8) = Some c /\
    Ui.displayed_points (map fst (SimulationResult.trajectory r))
                        (map snd (SimulationResult.trajectory r)) = Ok (xs', ys') /\
    Ui.py_max xs' = Ok mx /\ Ui.py_max ys' = Ok my /\
    is_finite (mx * 1.05) = true /\ is_finite (my * 1.05) = true /\
    w' = Ui.set_anim
           (Ui.set_ylim
              (Ui.set_xlim
                 (Ui.plot (Ui.advance_color w)
                    {| Ui.color := c;
                       Ui.label :=
                         ("dt=" ++ str_float text (SimulationResult.dt r))%string |})
                 (mx * 1.05))
              (my * 1.05))
           (xs', ys').
Proof.
  intros Hne H. unfold Ui.animate_new_trajectory in H.
  destruct (animate_new_trajectory_stop_cases w r Hne)
    as (c & xs' & ys' & mx & my & Hc & Hd & Hmx & Hmy & E).
  rewrite E in H. cbv zeta in H.
  exists c, xs', ys', mx, my.
  destruct (is_finite (mx * 1.05)); [|discriminate].
  destruct (is_finite (my * 1.05)); [|discriminate].
  injection H as <-. repeat split; auto.
Qed.

(** X4. The only statements of the presentation code that raise are
    [set_xlim] and [set_ylim], on a limit that is not finite: the colour
    lookup stays within the list, the slice step is never zero and [max]
    never sees an empty list. When a press of the run button ends in an
    exception, either the integration loop raised it and the window is
    untouched, or it is the ValueError of a limit and the window keeps
    the result appended, the counter advanced and the line plotted, the
    x limit too when it was the y limit that was refused, while the
    animation, the table and the information label are the old ones. *)
Theorem presentation_raises_only_at_limits
        (w w' : Ui.window) (fuel : nat) (e : exn) :
  Ui.run_simulation_stop libm text w fuel = Some (w', Some e) ->
  exists p,
    Ui.read_parameters text w = Some p /\
    ((simulate libm p fuel = Some (Raise e) /\ w' = w) \/
     (exists r c xs' ys' mx my,
        simulate libm p fuel = Some (Ok r) /\ e = ValueError /\
        nth_error Ui.colors (color_index (Ui.core w) mod 8) = Some c /\
        Ui.displayed_points (map fst (SimulationResult.trajectory r))
                            (map snd (SimulationResult.trajectory r)) = Ok (xs', ys') /\
        Ui.py_max xs' = Ok mx /\ Ui.py_max ys' = Ok my /\
        let w2 :=
          Ui.plot (Ui.advance_color (Ui.append_result w r))
            {| Ui.color := c;
               Ui.label := ("dt=" ++ str_float text (SimulationResult.dt r))%string |} in
        ((is_finite (mx * 1.05) = false /\ w' = w2) \/
         (is_finite (mx * 1.05) = true /\ is_finite (my * 1.05) = false /\
          w' = Ui.set_xlim w2 (mx * 1.05))))).
Proof.
  unfold Ui.run_simulation_stop, Ui.get_parameters. intros H.
  destruct (Ui.read_parameters text w) as [p|]; [|discriminate].
  exists p. split; [reflexivity|].
  destruct (simulate libm p fuel) as [[r|e']|] eqn:E; [|left|discriminate].
  2:{ injection H as <- <-. auto. }
  right.
  destruct (simulate_result_shape _ _ _ _ E) as ((tl & Ht) & _).
  destruct (animate_new_trajectory_stop_cases (Ui.append_result w r) r)
    as (c & xs' & ys' & mx & my & Hc & Hd & Hmx & Hmy & Ea).
  { rewrite Ht. discriminate. }
  rewrite Ea in H. cbv zeta in H.
  exists r, c, xs', ys', mx, my.
  split; [reflexivity|].
  destruct (is_finite (mx * 1.05)) eqn:Fx.
  - destruct (is_finite (my * 1.05)) eqn:Fy; [discriminate|].
    injection H as <- <-. repeat split; auto.
  - injection H as <- <-. repeat split; auto.
Qed.

(** X6. When [animate_new_trajectory] returns, the upper limit it passed
    to [set_ylim] is finite and is 1.05 times a value that is not NaN,
    lies between 0 and the result's [max_height], and is at least every y
    handed to the animation that is not NaN; the upper limit it passed to
    [set_xlim] is finite and is 1.05 times a value that is not NaN and at
    least 0 and at least every x handed to the animation that is not
    NaN. *)
Theorem axis_limits_cover_drawn_points
        (w w' : Ui.window) (p : params) (fuel : nat) (r : SimulationResult.t) :
  simulate libm p fuel = Some (Ok r) ->
  Ui.animate_new_trajectory text w r = Ok w' ->
  exists xs' ys' mx my,
    Ui.anim w' = Some (xs', ys') /\
    Ui.xlim w' = Some (mx * 1.05) /\ Ui.ylim w' = Some (my * 1.05) /\
    is_finite (mx * 1.05) = true /\ is_finite (my * 1.05) = true /\
    is_nan mx = false /\ (0 <=? mx) = true /\
    is_nan my = false /\ (0 <=? my) = true /\
    (my <=? SimulationResult.max_height r) = true /\
    (forall a, In a xs' -> is_nan a = false -> (a <=? mx) = true) /\
    (forall b, In b ys' -> is_nan b = false -> (b <=? my) = true).
Proof.
  intros Hsim Ha.
  destruct (simulate_result_shape _ _ _ _ Hsim) as ((tl & Ht) & Hnan & Hall).
  destruct (animate_new_trajectory_inv _ _ _ ltac:(rewrite Ht; discriminate) Ha)
    as (c & xs' & ys' & mx & my & _ & Hd & Hmx & Hmy & Fx & Fy & ->).
  exists xs', ys', mx, my. cbn [Ui.anim Ui.xlim Ui.ylim Ui.set_anim Ui.set_ylim Ui.set_xlim].
  split; [reflexivity|]. split; [reflexivity|]. split; [reflexivity|].
  split; [exact Fx|]. split; [exact Fy|].
  assert (Hshape : exists xt yt,
             xs' = 0 :: xt /\ ys' = 0 :: yt /\
             forall b, In b yt -> In b (map snd (SimulationResult.trajectory r))).
  { destruct (displayed_points_cases (map fst (SimulationResult.trajectory r))
                                     (map snd (SimulationResult.trajectory r)))
      as [[_ H]|[_ (gap & _ & H)]]; rewrite H in Hd; injection Hd as <- <-;
      rewrite Ht; simpl.
    - do 2 eexists. repeat split. intros b Hb. right. exact Hb.
    - do 2 eexists. repeat split. intros b Hb. right.
      eapply UiFacts.every_nth_incl. exact Hb. }
  destruct Hshape as (xt & yt & -> & -> & Hsub).
  cbn [Ui.py_max] in Hmx, Hmy. injection Hmx as <-. injection Hmy as <-.
  destruct (fold_max_bounds xt 0 eq_refl) as (Hx1 & Hx2 & _ & Hx4).
  destruct (fold_max_bounds yt 0 eq_refl) as (Hy1 & Hy2 & Hy3 & Hy4).
  cbv zeta in *.
  split; [exact Hx1|]. split; [exact Hx2|].
  split; [exact Hy1|]. split; [exact Hy2|].
  split; [|split].
  - destruct Hy3 as [<-|Hy3].
    + apply (Hall (0, 0)); [rewrite Ht; left; reflexivity | reflexivity].
    + apply Hsub in Hy3. apply in_map_iff in Hy3. destruct Hy3 as (q & Hq & Hin).
      rewrite <- Hq. apply Hall; [exact Hin|]. rewrite Hq. exact Hy1.
  - intros a [<-|Hin] Hn; [exact Hx2 | auto].
  - intros b [<-|Hin] Hn; [exact Hy2 | auto].
Qed.

End UiProperties.

(** ** The entry fields *)

Lemma labels_NoDup : NoDup Ui.labels.
Proof.
  unfold Ui.labels.
  repeat (constructor;
          [ cbn [In]; intros H;
            repeat (destruct H as [H|H]; [apply String.eqb_eq in H; discriminate H|]);
            exact H | ]).
  constructor.
Qed.

Lemma set_entry_keys (key s : string) (d : list (string * string)) :
  map fst (Ui.set_entry key s d) = map fst d.
Proof.
  unfold Ui.set_entry. rewrite map_map. apply map_ext.
  intros kv. destruct (String.eqb key (fst kv)); reflexivity.
Qed.

Lemma lookup_entry_Some (d : list (string * string)) (key s : string) :
  Ui.lookup_entry key d = Some s -> In (key, s) d.
Proof.
  induction d as [|[k v] d IH]; [discriminate|]. cbn [Ui.lookup_entry].
  destruct (String.eqb_spec key k) as [->|_].
  - intros H. injection H as ->. left. reflexivity.
  - intros H. right. apply IH. exact H.
Qed.

Lemma lookup_entry_In (d : list (string * string)) (key s : string) :
  NoDup (map fst d) -> In (key, s) d -> Ui.lookup_entry key d = Some s.
Proof.
  induction d as [|[k v] d IH]; intros Hnd Hin; [destruct Hin|].
  cbn [Ui.lookup_entry]. inversion Hnd as [|? ? Hk Hnd']; subst.
  destruct Hin as [Hin|Hin].
  - injection Hin as -> ->. rewrite String.eqb_refl. reflexivity.
  - destruct (String.eqb_spec key k) as [->|_]; [|apply IH; assumption].
    exfalso. apply Hk. apply in_map_iff. exists (k, s). auto.
Qed.

Lemma lookup_entry_key (d : list (string * string)) (key : string) :
  In key (map fst d) -> exists s, Ui.lookup_entry key d = Some s.
Proof.
  induction d as [|[k v] d IH]; intros Hin; [destruct Hin|].
  cbn [Ui.lookup_entry]. destruct (String.eqb_spec key k) as [->|Hne].
  - exists v. reflexivity.
  - destruct Hin as [Hin|Hin]; [simpl in Hin; congruence | apply IH; exact Hin].
Qed.

(** ** A session *)

Section Session.
Variable libm : Libm.
Variable text : Text.

Lemma session_inv_initial : session_inv text (Ui.initial_window text).
Proof.
  unfold session_inv. cbn.
  split; [reflexivity|]. split; [reflexivity|]. split; [reflexivity|].
  split; [intros [|i] ln H; discriminate|].
  split; [exists [], []; repeat split; constructor|].
  split; auto.
Qed.

Lemma run_simulation_Ok (w w' : Ui.window) (fuel : nat) :
  Ui.run_simulation libm text w fuel = Some (Ok w') ->
  Ui.run_simulation_stop libm text w fuel = Some (w', None).
Proof.
  unfold Ui.run_simulation.
  destruct (Ui.run_simulation_stop libm text w fuel) as [[w1 [e|]]|];
    congruence.
Qed.

(** The invariant survives a press of the run button, however it ends. *)
Lemma session_inv_run (w w' : Ui.window) (fuel : nat) (oe : option exn) :
  session_inv text w ->
  Ui.run_simulation_stop libm text w fuel = Some (w', oe) ->
  session_inv text w'.
Proof.
  intros Hinv H. assert (Hinv0 := Hinv).
  destruct Hinv as (Hci & Hlen & Hkeys & Hlines & Hshown & Hnone & Hxy).
  unfold Ui.run_simulation_stop, Ui.get_parameters in H.
  destruct (Ui.read_parameters text w) as [p|].
  2:{ injection H as <- <-. exact Hinv0. }
  destruct (simulate libm p fuel) as [[r|e]|] eqn:E; try discriminate.
  2:{ injection H as <- <-. exact Hinv0. }
  destruct (simulate_result_shape _ _ _ _ E) as ((tl & Ht) & _).
  assert (Hne : SimulationResult.trajectory r <> []) by (rewrite Ht; discriminate).
  destruct (animate_new_trajectory_stop_cases text (Ui.append_result w r) r Hne)
    as (c & xs' & ys' & mx & my & Hc & Hd & Hmx & Hmy & Ea).
  cbn in Hc.
  assert (Hnew : forall i ln,
             nth_error (Ui.lines w ++
                        [{| Ui.color := c;
                            Ui.label :=
                              ("dt=" ++ str_float text (SimulationResult.dt r))%string |}])
                       i = Some ln ->
             exists r0,
               nth_error (results (Ui.core w) ++ [r]) i = Some r0 /\
               nth_error Ui.colors (i mod 8) = Some (Ui.color ln) /\
               Ui.label ln = ("dt=" ++ str_float text (SimulationResult.dt r0))%string).
  { intros i ln Hi.
    destruct (Nat.lt_ge_cases i (length (Ui.lines w))) as [Hlt|Hge].
    - rewrite nth_error_app1 in Hi by exact Hlt.
      destruct (Hlines i ln Hi) as (r0 & Hr0 & Hcol & Hlab).
      exists r0. split; [|auto].
      rewrite nth_error_app1; [exact Hr0 | lia].
    - rewrite nth_error_app2 in Hi by exact Hge.
      destruct (i - length (Ui.lines w))%nat as [|k] eqn:Ek;
        [|destruct k; discriminate].
      injection Hi as <-. cbn.
      assert (i = length (results (Ui.core w))) by lia. subst i.
      exists r. split; [|split; [|reflexivity]].
      + rewrite nth_error_app2 by lia. rewrite Nat.sub_diag. reflexivity.
      + rewrite <- Hci. exact Hc. }
  assert (Hraise : is_finite (mx * 1.05) && is_finite (my * 1.05) = false ->
                   forall w0, Ui.animate_new_trajectory text w0 r = Raise ValueError).
  { intros Hf w0. unfold Ui.animate_new_trajectory.
    destruct (animate_new_trajectory_stop_cases text w0 r Hne)
      as (c0 & xs0 & ys0 & mx0 & my0 & _ & Hd0 & Hmx0 & Hmy0 & ->).
    rewrite Hd in Hd0. injection Hd0 as <- <-.
    rewrite Hmx in Hmx0. injection Hmx0 as <-.
    rewrite Hmy in Hmy0. injection Hmy0 as <-.
    cbv zeta.
    destruct (is_finite (mx * 1.05)); [|reflexivity].
    destruct (is_finite (my * 1.05)); [discriminate|reflexivity]. }
  rewrite Ea in H. cbv zeta in H.
  destruct Hshown as (shown & pending & Hres & Htree & Hinfo & Hpend).
  assert (Hnil : results (Ui.core w) ++ [r] <> []).
  { destruct (results (Ui.core w)); discriminate. }
  destruct (is_finite (mx * 1.05)) eqn:Fx; [destruct (is_finite (my * 1.05)) eqn:Fy|].
  - injection H as <- <-. unfold session_inv. cbn.
    split; [rewrite length_app; simpl; lia|].
    split; [rewrite !length_app; simpl; lia|].
    split; [exact Hkeys|]. split; [exact Hnew|].
    split; [exists (results (Ui.core w) ++ [r]), [];
            rewrite app_nil_r; repeat split; constructor|].
    split; [intros E0; contradiction | discriminate].
  - injection H as <- <-. unfold session_inv. cbn.
    split; [rewrite length_app; simpl; lia|].
    split; [rewrite !length_app; simpl; lia|].
    split; [exact Hkeys|]. split; [exact Hnew|].
    split.
    + exists shown, (pending ++ [r]). rewrite Hres, app_assoc.
      split; [reflexivity|]. split; [exact Htree|]. split; [exact Hinfo|].
      apply Forall_app. split; [exact Hpend|].
      constructor; [apply Hraise; reflexivity | constructor].
    + split; [intros E0; contradiction | discriminate].
  - injection H as <- <-. unfold session_inv. cbn.
    split; [rewrite length_app; simpl; lia|].
    split; [rewrite !length_app; simpl; lia|].
    split; [exact Hkeys|]. split; [exact Hnew|].
    split.
    + exists shown, (pending ++ [r]). rewrite Hres, app_assoc.
      split; [reflexivity|]. split; [exact Htree|]. split; [exact Hinfo|].
      apply Forall_app. split; [exact Hpend|].
      constructor; [apply Hraise; reflexivity | constructor].
    + split; [intros E0; contradiction | exact Hxy].
Qed.

Lemma session_inv_reachable (w : Ui.window) :
  Ui.reachable libm text w -> session_inv text w.
Proof.
  induction 1 as [|w key s _ IH|w s _ IH|w fuel w' _ IH Hrun
                  |w fuel w' e _ IH Hrun|w _ IH].
  - apply session_inv_initial.
  - destruct IH as (Hci & Hlen & Hkeys & Hlines & Hshown & Hnone & Hxy).
    unfold session_inv. cbn. rewrite set_entry_keys. repeat split; auto; apply Hnone; auto.
  - exact IH.
  - eapply session_inv_run; [exact IH|]. apply run_simulation_Ok. exact Hrun.
  - eapply session_inv_run; [exact IH | exact Hrun].
  - destruct IH as (Hci & Hlen & Hkeys & Hlines & Hshown & Hnone & Hxy).
    unfold session_inv. cbn.
    split; [reflexivity|]. split; [reflexivity|]. split; [exact Hkeys|].
    split; [intros [|i] ln H; discriminate|].
    split; [exists [], []; repeat split; constructor|].
    split; auto.
Qed.

(** X7. In every window a session can reach, the colour counter and the
    number of lines in the axes equal the number of stored results, and
    line number i belongs to result number i: its label carries that
    result's step and its colour is colour number i modulo 8, counted
    from the last press of the clear button. *)
Theorem session_lines_match_results (w : Ui.window) :
  Ui.reachable libm text w ->
  color_index (Ui.core w) = length (results (Ui.core w)) /\
  length (Ui.lines w) = length (results (Ui.core w)) /\
  forall i ln,
    nth_error (Ui.lines w) i = Some ln ->
    exists r,
      nth_error (results (Ui.core w)) i = Some r /\
      nth_error Ui.colors (i mod 8) = Some (Ui.color ln) /\
      Ui.label ln = ("dt=" ++ str_float text (SimulationResult.dt r))%string.
Proof.
  intros H. destruct (session_inv_reachable w H) as (H1 & H2 & _ & H4 & _).
  auto.
Qed.

(** X8. In every window a session can reach, the table and the
    information label show a prefix of the stored results, in the order
    of the runs: the results that were stored when the two were last
    rebuilt. The results stored since are those of presses that ended in
    the ValueError of an axis limit, for which lines 213-214 were not
    reached, and [animate_new_trajectory] raises on each of them in any
    window. While nothing is stored no limit has been requested. A press
    with parameters that returns leaves the table with one row per stored
    result, the label showing the last one, and both limits requested. *)
Theorem session_table_lags_failed_runs (w : Ui.window) :
  Ui.reachable libm text w ->
  (exists shown pending,
     results (Ui.core w) = shown ++ pending /\
     Ui.tree w = map (Ui.table_row text) shown /\
     length (Ui.tree w) = length shown /\
     Ui.info_label w = Ui.info_of text shown /\
     Forall (fun r => forall w0,
               Ui.animate_new_trajectory text w0 r = Raise ValueError) pending) /\
  (results (Ui.core w) = [] -> Ui.xlim w = None /\ Ui.ylim w = None) /\
  (forall p fuel w',
     Ui.read_parameters text w = Some p ->
     Ui.run_simulation libm text w fuel = Some (Ok w') ->
     Ui.tree w' = map (Ui.table_row text) (results (Ui.core w')) /\
     Ui.info_label w' = Ui.info_of text (results (Ui.core w')) /\
     exists r a b,
       simulate libm p fuel = Some (Ok r) /\
       results (Ui.core w') = results (Ui.core w) ++ [r] /\
       Ui.limits w' = Some (a, b)).
Proof.
  intros H.
  destruct (session_inv_reachable w H)
    as (_ & _ & _ & _ & (shown & pending & H1 & H2 & H3 & H4) & H5 & _).
  split; [|split; [exact H5|]].
  - exists shown, pending. rewrite H2, length_map. auto.
  - intros p fuel w' Hp Hrun. apply run_simulation_Ok in Hrun.
    unfold Ui.run_simulation_stop, Ui.get_parameters in Hrun. rewrite Hp in Hrun.
    destruct (simulate libm p fuel) as [[r|e]|] eqn:E; try discriminate.
    destruct (simulate_result_shape _ _ _ _ E) as ((tl & Ht) & _).
    destruct (animate_new_trajectory_stop_cases text (Ui.append_result w r) r)
      as (c & xs' & ys' & mx & my & _ & _ & _ & _ & Ea).
    { rewrite Ht. discriminate. }
    rewrite Ea in Hrun. cbv zeta in Hrun.
    destruct (is_finite (mx * 1.05)); [|discriminate].
    destruct (is_finite (my * 1.05)); [|discriminate].
    injection Hrun as <-. cbn.
    split; [reflexivity|]. split; [reflexivity|].
    exists r, (mx * 1.05), (my * 1.05). auto.
Qed.

Lemma read_parameters_None (w : Ui.window) :
  map fst (Ui.entries w) = Ui.labels ->
  (Ui.read_parameters text w = None <->
   float_of_string text (Ui.dt_entry w) = None \/
   exists key s, In (key, s) (Ui.entries w) /\ float_of_string text s = None).
Proof.
  intros Hkeys.
  assert (Hnd : NoDup (map fst (Ui.entries w))) by (rewrite Hkeys; apply labels_NoDup).
  assert (Hk : forall key, In key Ui.labels ->
                exists s, Ui.lookup_entry key (Ui.entries w) = Some s).
  { intros key Hin. apply lookup_entry_key. rewrite Hkeys. exact Hin. }
  destruct (Hk Ui.label_v0) as (s1 & E1); [cbn; tauto|].
  destruct (Hk Ui.label_angle) as (s2 & E2); [cbn; tauto|].
  destruct (Hk Ui.label_mass) as (s3 & E3); [cbn; tauto|].
  destruct (Hk Ui.label_rho) as (s4 & E4); [cbn; tauto|].
  destruct (Hk Ui.label_Cd) as (s5 & E5); [cbn; tauto|].
  destruct (Hk Ui.label_A) as (s6 & E6); [cbn; tauto|].
  unfold Ui.read_parameters, Ui.entry_float. rewrite E1, E2, E3, E4, E5, E6.
  split.
  - intros H.
    destruct (float_of_string text s1) eqn:P1;
      [|right; exists Ui.label_v0, s1; split; [apply lookup_entry_Some|]; assumption].
    destruct (float_of_string text s2) eqn:P2;
      [|right; exists Ui.label_angle, s2; split; [apply lookup_entry_Some|]; assumption].
    destruct (float_of_string text s3) eqn:P3;
      [|right; exists Ui.label_mass, s3; split; [apply lookup_entry_Some|]; assumption].
    destruct (float_of_string text s4) eqn:P4;
      [|right; exists Ui.label_rho, s4; split; [apply lookup_entry_Some|]; assumption].
    destruct (float_of_string text s5) eqn:P5;
      [|right; exists Ui.label_Cd, s5; split; [apply lookup_entry_Some|]; assumption].
    destruct (float_of_string text s6) eqn:P6;
      [|right; exists Ui.label_A, s6; split; [apply lookup_entry_Some|]; assumption].
    destruct (float_of_string text (Ui.dt_entry w)); [discriminate | left; reflexivity].
  - intros [H|(key & s & Hin & Hs)].
    + rewrite H. repeat destruct (float_of_string text _); reflexivity.
    + assert (Hl := lookup_entry_In _ _ _ Hnd Hin).
      assert (Hkey : In key Ui.labels).
      { rewrite <- Hkeys. apply in_map_iff. exists (key, s). auto. }
      cbn in Hkey.
      destruct Hkey as [<-|[<-|[<-|[<-|[<-|[<-|[]]]]]]];
        match goal with
        | E : Ui.lookup_entry ?k _ = Some ?si |- _ =>
            rewrite E in Hl; injection Hl as ->
        end; rewrite Hs; repeat destruct (float_of_string text _); reflexivity.
Qed.

(** X9. In every window a session can reach the six entry fields exist,
    so [get_parameters] fails exactly when the text of one of the seven
    fields is not a number; the run then stores nothing, draws nothing
    and shows one more error dialog. Nothing else is checked: any seven
    numbers are accepted. *)
Theorem parameters_rejected_only_for_text (w : Ui.window) :
  Ui.reachable libm text w ->
  map fst (Ui.entries w) = Ui.labels /\
  (Ui.read_parameters text w = None <->
   float_of_string text (Ui.dt_entry w) = None \/
   exists key s, In (key, s) (Ui.entries w) /\ float_of_string text s = None) /\
  (Ui.read_parameters text w = None ->
   forall fuel,
     Ui.run_simulation libm text w fuel = Some (Ok (Ui.showerror w)) /\
     Ui.errors_shown (Ui.showerror w) = S (Ui.errors_shown w) /\
     Ui.core (Ui.showerror w) = Ui.core w /\
     Ui.lines (Ui.showerror w) = Ui.lines w /\
     Ui.tree (Ui.showerror w) = Ui.tree w).
Proof.
  intros H. destruct (session_inv_reachable w H) as (_ & _ & Hkeys & _).
  split; [exact Hkeys|]. split; [apply read_parameters_None; exact Hkeys|].
  intros Hnone fuel.
  unfold Ui.run_simulation, Ui.run_simulation_stop, Ui.get_parameters.
  rewrite Hnone. repeat split.
Qed.

(** X10. When every entry field still holds its initial text, and
    [float] reads back what [str] printed for the six defaults and reads
    "0.01" as 0.01, [get_parameters] returns the defaults of [__init__]
    with the step 0.01. *)
Theorem untouched_fields_give_defaults :
  Forall (fun a => float_of_string text (str_float text a) = Some a)
         [100; 45; 1; 1.29; 0.15; 0.01] ->
  float_of_string text "0.01" = Some 0.01 ->
  Ui.get_parameters text (Ui.initial_window text)
  = (Ui.initial_window text, Some default_params).
Proof.
  intros Hall Hdt.
  repeat (apply Forall_cons_iff in Hall; destruct Hall as [? Hall]).
  unfold Ui.get_parameters, Ui.read_parameters, Ui.entry_float.
  cbn [Ui.initial_window Ui.entries Ui.dt_entry Ui.lookup_entry].
  cbn [String.eqb Ascii.eqb Bool.eqb Ui.label_v0 Ui.label_angle Ui.label_mass
       Ui.label_rho Ui.label_Cd Ui.label_A].
  repeat match goal with
         | H : float_of_string text _ = Some _ |- _ => rewrite H; clear H
         end.
  reflexivity.
Qed.

End Session.

(** ** A step of zero *)

(** X11. With a step of exactly 0.0 the body never moves: every height
    the loop computes is 0.0 or NaN, so a run that returns left the loop
    through a NaN height; every earlier sample has height 0.0,
    [max_height] is 0.0 and [range] is 0.0 or NaN. *)
Theorem zero_step_never_moves (libm : Libm) (p : params) (fuel : nat)
        (r : SimulationResult.t) :
  dt p = 0 ->
  simulate libm p fuel = Some (Ok r) ->
  SimulationResult.max_height r = 0 /\
  (SimulationResult.range r = 0 \/ SimulationResult.range r = nan) /\
  exists earlier xl,
    SimulationResult.trajectory r = earlier ++ [(xl, nan)] /\
    Forall (fun q => snd q = 0) earlier.
Proof.
  intros Hdt H. destruct (simulate_inv _ _ _ _ H) as (s0 & s' & H0 & Hw & Hr).
  set (P := fun s : locals =>
              (x s = 0 \/ x s = nan) /\ (y s = 0 \/ y s = nan) /\
              max_height s = 0 /\
              exists earlier,
                trajectory s = earlier ++ [(x s, y s)] /\
                Forall (fun q : float * float => snd q = 0) earlier).
  assert (Hstep : forall s s1, P s -> (0 <=? y s) = true ->
                               loop_body libm p s = Ok s1 -> P s1).
  { intros s s1 (Hx & Hy & Hm & earlier & Ht & Hall) Hg Hb.
    destruct Hy as [Hy|Hy]; [|rewrite Hy in Hg; discriminate].
    destruct (loop_body_inv _ _ _ _ Hb) as (ax & ay & speed & _ & _ & ->).
    unfold P. cbn. rewrite Hdt, Hy, Hm.
    assert (Hy' := FloatMore.zero_plus_times_zero (vy s + ay * 0)).
    split; [|split; [exact Hy'|split]].
    - destruct Hx as [->| ->];
        [apply FloatMore.zero_plus_times_zero | right; apply FloatMore.nan_plus].
    - destruct Hy' as [-> | ->]; reflexivity.
    - exists (earlier ++ [(x s, 0)]). rewrite Ht, Hy. split; [reflexivity|].
      apply Forall_app. split; [exact Hall|]. constructor; [reflexivity|constructor]. }
  assert (HP0 : P s0).
  { destruct (initial_locals_inv _ _ _ H0) as (c & sn & speed & _ & _ & _ & ->).
    unfold P. cbn. repeat split; auto. exists []. split; [reflexivity|constructor]. }
  destruct (while_loop_invariant libm p P Hstep fuel s0 s' HP0 Hw)
    as ((Hx & Hy & Hm & earlier & Ht & Hall) & Hg).
  destruct Hy as [Hy|Hy]; [rewrite Hy in Hg; discriminate|].
  destruct (make_result_inv _ _ _ Hr) as (fs & _ & ->). cbn.
  split; [exact Hm|]. split; [exact Hx|].
  exists earlier, (x s'). rewrite Ht, Hy. split; [reflexivity | exact Hall].
Qed.

(** ** The presentation layer on concrete windows *)


(** Of 1600 samples every second one is kept: 800 points, the last of
    them sample 1598, not the landing sample 1599. *)
Example long_trajectory_loses_landing :
  exists xs' ys',
    Ui.displayed_points (map fst long_trajectory) (map snd long_trajectory)
    = Ok (xs', ys') /\
    length xs' = 800%nat /\
    nth_error xs' 799 = Some (float_of_nat 1598) /\
    nth_error (map fst long_trajectory) 1599 = Some (float_of_nat 1599).
Proof.
  do 2 eexists. split; [vm_compute; reflexivity|].
  vm_compute. repeat split.
Qed.

Lemma displayed_points_are_samples_witness :
  exists step,
    step = (if (800 <? length (SimulationResult.trajectory coarse_result))%nat
            then length (SimulationResult.trajectory coarse_result) / 800
            else 1)%nat /\
    (1 <= step)%nat /\
    (forall k,
       nth_error (combine (map fst (SimulationResult.trajectory coarse_result))
                          (map snd (SimulationResult.trajectory coarse_result))) k
       = nth_error (SimulationResult.trajectory coarse_result) (k * step)) /\
    nth_error (combine (map fst (SimulationResult.trajectory coarse_result))
                       (map snd (SimulationResult.trajectory coarse_result))) 0
    = nth_error (SimulationResult.trajectory coarse_result) 0 /\
    length (map fst (SimulationResult.trajectory coarse_result))
    = S ((length (SimulationResult.trajectory coarse_result) - 1) / step) /\
    nth_error (combine (map fst (SimulationResult.trajectory coarse_result))
                       (map snd (SimulationResult.trajectory coarse_result)))
              (length (map fst (SimulationResult.trajectory coarse_result)) - 1)
    = nth_error (SimulationResult.trajectory coarse_result)
                ((length (SimulationResult.trajectory coarse_result) - 1) / step * step).
Proof.
  apply (displayed_points_are_samples
           (SimulationResult.trajectory coarse_result)
           (map fst (SimulationResult.trajectory coarse_result))
           (map snd (SimulationResult.trajectory coarse_result))).
  - vm_compute. reflexivity.
  - discriminate.
Defined.

Lemma last_point_never_drawn_witness :
  length (fst (Ui.animate [1; 2; 3] [4; 5; 6] 2)) = 2%nat /\
  (2 <= length [1; 2; 3] - 1)%nat /\
  In (length [1; 2; 3] - 1)%nat (Ui.frames [1; 2; 3]) /\
  nth_error (fst (Ui.animate [1; 2; 3] [4; 5; 6] 2)) (length [1; 2; 3] - 1) = None.
Proof.
  apply (last_point_never_drawn [1; 2; 3] [4; 5; 6] 2).
  vm_compute. right. right. left. reflexivity.
Defined.

(** The run on [far_window] ends in the ValueError of [set_xlim]: the
    result is stored and its line plotted, no limit is requested, and
    the table and the label are untouched. *)
Lemma presentation_raises_only_at_limits_witness :
  exists p,
    Ui.read_parameters sample_text far_window = Some p /\
    ((simulate sample_libm p 1 = Some (Raise ValueError) /\
      far_window_after_run = far_window) \/
     (exists r c xs' ys' mx my,
        simulate sample_libm p 1 = Some (Ok r) /\ ValueError = ValueError /\
        nth_error Ui.colors (color_index (Ui.core far_window) mod 8) = Some c /\
        Ui.displayed_points (map fst (SimulationResult.trajectory r))
                            (map snd (SimulationResult.trajectory r)) = Ok (xs', ys') /\
        Ui.py_max xs' = Ok mx /\ Ui.py_max ys' = Ok my /\
        let w2 :=
          Ui.plot (Ui.advance_color (Ui.append_result far_window r))
            {| Ui.color := c;
               Ui.label :=
                 ("dt=" ++ str_float sample_text (SimulationResult.dt r))%string |} in
        ((is_finite (mx * 1.05) = false /\ far_window_after_run = w2) \/
         (is_finite (mx * 1.05) = true /\ is_finite (my * 1.05) = false /\
          far_window_after_run = Ui.set_xlim w2 (mx * 1.05))))).
Proof.
  apply (presentation_raises_only_at_limits sample_libm sample_text
           far_window far_window_after_run 1 ValueError).
  vm_compute. reflexivity.
Defined.

Example far_run_leaves_table_stale :
  valid_parameters far_params = true /\
  Ui.read_parameters sample_text far_window = Some far_params /\
  simulate sample_libm far_params 1 = Some (Ok far_result) /\
  SimulationResult.range far_result = infinity /\
  Ui.run_simulation sample_libm sample_text far_window 1 = Some (Raise ValueError) /\
  Ui.run_simulation_stop sample_libm sample_text far_window 1
  = Some (far_window_after_run, Some ValueError) /\
  results (Ui.core far_window_after_run) = [far_result] /\
  length (Ui.lines far_window_after_run) = 1%nat /\
  Ui.tree far_window_after_run = [] /\
  Ui.info_label far_window_after_run = Ui.NoRun /\
  Ui.limits far_window_after_run = None.
Proof. vm_compute. repeat split. Qed.

Lemma axis_limits_cover_drawn_points_witness :
  exists xs' ys' mx my,
    Ui.anim coarse_window_animated = Some (xs', ys') /\
    Ui.xlim coarse_window_animated = Some (mx * 1.05) /\
    Ui.ylim coarse_window_animated = Some (my * 1.05) /\
    is_finite (mx * 1.05) = true /\ is_finite (my * 1.05) = true /\
    is_nan mx = false /\ (0 <=? mx) = true /\
    is_nan my = false /\ (0 <=? my) = true /\
    (my <=? SimulationResult.max_height coarse_result) = true /\
    (forall a, In a xs' -> is_nan a = false -> (a <=? mx) = true) /\
    (forall b, In b ys' -> is_nan b = false -> (b <=? my) = true).
Proof.
  apply (axis_limits_cover_drawn_points sample_libm sample_text
           coarse_window_appended coarse_window_animated coarse_params 20
           coarse_result).
  - vm_compute. reflexivity.
  - vm_compute. reflexivity.
Defined.

Lemma session_lines_match_results_witness :
  color_index (Ui.core coarse_window_after_run)
  = length (results (Ui.core coarse_window_after_run)) /\
  length (Ui.lines coarse_window_after_run)
  = length (results (Ui.core coarse_window_after_run)) /\
  forall i ln,
    nth_error (Ui.lines coarse_window_after_run) i = Some ln ->
    exists r,
      nth_error (results (Ui.core coarse_window_after_run)) i = Some r /\
      nth_error Ui.colors (i mod 8) = Some (Ui.color ln) /\
      Ui.label ln = ("dt=" ++ str_float sample_text (SimulationResult.dt r))%string.
Proof.
  apply (session_lines_match_results sample_libm sample_text coarse_window_after_run).
  apply (Ui.reach_run sample_libm sample_text coarse_window 20).
  - apply Ui.reach_type_dt. apply Ui.reach_initial.
  - vm_compute. reflexivity.
Defined.

Lemma session_table_lags_failed_runs_witness :
  (exists shown pending,
     results (Ui.core far_window_after_run) = shown ++ pending /\
     Ui.tree far_window_after_run = map (Ui.table_row sample_text) shown /\
     length (Ui.tree far_window_after_run) = length shown /\
     Ui.info_label far_window_after_run = Ui.info_of sample_text shown /\
     Forall (fun r => forall w0,
               Ui.animate_new_trajectory sample_text w0 r = Raise ValueError) pending) /\
  (results (Ui.core far_window_after_run) = [] ->
   Ui.xlim far_window_after_run = None /\ Ui.ylim far_window_after_run = None) /\
  (forall p fuel w',
     Ui.read_parameters sample_text far_window_after_run = Some p ->
     Ui.run_simulation sample_libm sample_text far_window_after_run fuel = Some (Ok w') ->
     Ui.tree w' = map (Ui.table_row sample_text) (results (Ui.core w')) /\
     Ui.info_label w' = Ui.info_of sample_text (results (Ui.core w')) /\
     exists r a b,
       simulate sample_libm p fuel = Some (Ok r) /\
       results (Ui.core w') = results (Ui.core far_window_after_run) ++ [r] /\
       Ui.limits w' = Some (a, b)).
Proof.
  apply (session_table_lags_failed_runs sample_libm sample_text far_window_after_run).
  apply (Ui.reach_run_raised sample_libm sample_text far_window 1
           far_window_after_run ValueError).
  - unfold far_window. apply Ui.reach_type_dt. do 3 apply Ui.reach_type_entry.
    apply Ui.reach_initial.
  - vm_compute. reflexivity.
Defined.

Lemma parameters_rejected_only_for_text_witness :
  map fst (Ui.entries (Ui.type_dt coarse_window "")) = Ui.labels /\
  (Ui.read_parameters sample_text (Ui.type_dt coarse_window "") = None <->
   float_of_string sample_text (Ui.dt_entry (Ui.type_dt coarse_window "")) = None \/
   exists key s,
     In (key, s) (Ui.entries (Ui.type_dt coarse_window "")) /\
     float_of_string sample_text s = None) /\
  (Ui.read_parameters sample_text (Ui.type_dt coarse_window "") = None ->
   forall fuel,
     Ui.run_simulation sample_libm sample_text (Ui.type_dt coarse_window "") fuel
     = Some (Ok (Ui.showerror (Ui.type_dt coarse_window ""))) /\
     Ui.errors_shown (Ui.showerror (Ui.type_dt coarse_window ""))
     = S (Ui.errors_shown (Ui.type_dt coarse_window "")) /\
     Ui.core (Ui.showerror (Ui.type_dt coarse_window ""))
     = Ui.core (Ui.type_dt coarse_window "") /\
     Ui.lines (Ui.showerror (Ui.type_dt coarse_window ""))
     = Ui.lines (Ui.type_dt coarse_window "") /\
     Ui.tree (Ui.showerror (Ui.type_dt coarse_window ""))
     = Ui.tree (Ui.type_dt coarse_window "")).
Proof.
  apply (parameters_rejected_only_for_text sample_libm sample_text
           (Ui.type_dt coarse_window "")).
  apply Ui.reach_type_dt. apply Ui.reach_type_dt. apply Ui.reach_initial.
Defined.

Lemma untouched_fields_give_defaults_witness :
  Ui.get_parameters sample_text (Ui.initial_window sample_text)
  = (Ui.initial_window sample_text, Some default_params).
Proof.
  apply (untouched_fields_give_defaults sample_text).
  - repeat constructor.
  - reflexivity.
Defined.

Lemma zero_step_never_moves_witness :
  SimulationResult.max_height dense_still_result = 0 /\
  (SimulationResult.range dense_still_result = 0 \/
   SimulationResult.range dense_still_result = nan) /\
  exists earlier xl,
    SimulationResult.trajectory dense_still_result = earlier ++ [(xl, nan)] /\
    Forall (fun q => snd q = 0) earlier.
Proof.
  apply (zero_step_never_moves sample_libm dense_still_params 1).
  - reflexivity.
  - vm_compute. reflexivity.
Defined.

(** ** The clear button *)

Section Clear.
Variable libm : Libm.
Variable text : Text.

(** X12. [clear_results] forgets the history: it empties the results,
    the axes, the table and the information label and restarts the
    colour cycle, so a run after it displays what the same run displays
    in any other cleared window with the same texts in the entry fields
    (in a window just opened, for instance), and ends in the same way. *)
Theorem clear_forgets_history (w1 w2 : Ui.window) (fuel : nat) :
  Ui.entries w1 = Ui.entries w2 ->
  Ui.dt_entry w1 = Ui.dt_entry w2 ->
  display (Ui.clear_results text w1) =
    (Ui.core (Ui.initial_window text), [], None, [], Ui.NoRun) /\
  match Ui.run_simulation libm text (Ui.clear_results text w1) fuel,
        Ui.run_simulation libm text (Ui.clear_results text w2) fuel with
  | Some (Ok a), Some (Ok b) => display a = display b
  | Some (Raise e1), Some (Raise e2) => e1 = e2
  | None, None => True
  | _, _ => False
  end.
Proof.
  intros He Hd. split; [reflexivity|].
  unfold Ui.run_simulation, Ui.run_simulation_stop, Ui.get_parameters.
  assert (Hr : Ui.read_parameters text (Ui.clear_results text w1)
               = Ui.read_parameters text (Ui.clear_results text w2)).
  { unfold Ui.read_parameters, Ui.entry_float. cbn. rewrite He, Hd. reflexivity. }
  rewrite Hr.
  destruct (Ui.read_parameters text (Ui.clear_results text w2)) as [p|];
    [|reflexivity].
  destruct (simulate libm p fuel) as [[r|e]|]; try reflexivity.
  unfold Ui.animate_new_trajectory_stop. cbn.
  destruct (Ui.displayed_points _ _) as [[xs' ys']|e]; cbn; [|reflexivity].
  destruct (Ui.py_max xs') as [mx|e]; cbn; [|reflexivity].
  unfold Ui.check_limit.
  destruct (is_finite (mx * 1.05)); cbn; [|reflexivity].
  destruct (Ui.py_max ys') as [my|e]; cbn; [|reflexivity].
  destruct (is_finite (my * 1.05)); cbn; reflexivity.
Qed.

End Clear.

Lemma clear_forgets_history_witness :
  display (Ui.clear_results sample_text used_window) =
    (Ui.core (Ui.initial_window sample_text), [], None, [], Ui.NoRun) /\
  match Ui.run_simulation sample_libm sample_text
          (Ui.clear_results sample_text used_window) 1229,
        Ui.run_simulation sample_libm sample_text
          (Ui.clear_results sample_text (Ui.initial_window sample_text)) 1229 with
  | Some (Ok a), Some (Ok b) => display a = display b
  | Some (Raise e1), Some (Raise e2) => e1 = e2
  | None, None => True
  | _, _ => False
  end.
Proof.
  apply (clear_forgets_history sample_libm sample_text
           used_window (Ui.initial_window sample_text) 1229).
  - reflexivity.
  - reflexivity.
Defined.
